(** * Verification of the CodaLab worker start-up code (worker/codalabworker/main.py)

    Shallow embedding of [main], [create_run_manager], [parse_cpuset_args]
    and [parse_gpuset_args].  Effects (calls into the operating system, the
    Docker client, object construction, signal registration, printing) are
    recorded in a trace threaded through a small state-and-exception monad;
    the outside world (file system, environment, device enumeration, ...)
    is an explicit record of oracles. *)

From Stdlib Require Import String Ascii ZArith List Bool.
From stdpp Require Import base gmap list sorting.
Import ListNotations.
Open Scope Z_scope.

(* ------------------------------------------------------------------ *)
(** ** Python 2 string helpers *)

Module Py.

(** Characters for which C [isspace] holds: space, \t, \n, \v, \f, \r. *)
Definition is_space (c : ascii) : bool :=
  let n := nat_of_ascii c in
  (n =? 32)%nat || ((9 <=? n)%nat && (n <=? 13)%nat).

Definition is_digit (c : ascii) : bool :=
  let n := nat_of_ascii c in ((48 <=? n)%nat && (n <=? 57)%nat).

Definition digit_val (c : ascii) : Z := Z.of_nat (nat_of_ascii c) - 48.

Fixpoint skip_ws (l : list ascii) : list ascii :=
  match l with
  | c :: r => if is_space c then skip_ws r else l
  | [] => []
  end.

(** Longest prefix of decimal digits, and the rest. *)
Fixpoint span_digits (l : list ascii) : list ascii * list ascii :=
  match l with
  | c :: r => if is_digit c then let '(ds, tl) := span_digits r in (c :: ds, tl)
              else ([], l)
  | [] => ([], [])
  end.

Definition digits_value (ds : list ascii) : Z :=
  fold_left (fun acc c => 10 * acc + digit_val c) ds 0.

(** [int(s)] for a Python 2.7 [str] (PyInt_FromString, base 10): blanks,
    an optional sign, blanks again (PyOS_strtoul skips them), at least one
    digit, trailing blanks.  A value that does not fit a C long is re-read
    by PyLong_FromString only after this check has passed; that parser
    also skips blanks after the sign and gives the same value, so the
    result does not depend on the width of [long].  [None] is the
    [ValueError]. *)
Definition int_ (s : string) : option Z :=
  let l0 := skip_ws (list_ascii_of_string s) in
  let '(neg, l1) :=
    match l0 with
    | "-"%char :: r => (true, r)
    | "+"%char :: r => (false, r)
    | _ => (false, l0)
    end in
  let '(ds, rest) := span_digits (skip_ws l1) in
  match ds with
  | [] => None
  | _ :: _ =>
      if forallb is_space rest then
        let u := digits_value ds in
        Some (if neg then - u else u)
      else None
  end.

(** [s.split(sep)] for a one-character separator. *)
Fixpoint split_aux (sep : ascii) (l : list ascii) (cur : list ascii) : list string :=
  match l with
  | [] => [string_of_list_ascii (rev cur)]
  | c :: r =>
      if Ascii.eqb c sep then string_of_list_ascii (rev cur) :: split_aux sep r []
      else split_aux sep r (c :: cur)
  end.

Definition split (sep : ascii) (s : string) : list string :=
  split_aux sep (list_ascii_of_string s) [].

(** [f.readline()] on the remaining contents of a file: the first line,
    with its newline, and what follows it. *)
Fixpoint readline_aux (l : list ascii) : list ascii * list ascii :=
  match l with
  | [] => ([], [])
  | c :: r => if Ascii.eqb c "010"%char then ([c], r)
              else let '(ln, tl) := readline_aux r in (c :: ln, tl)
  end.

Definition readline (s : string) : string * string :=
  let '(ln, tl) := readline_aux (list_ascii_of_string s) in
  (string_of_list_ascii ln, string_of_list_ascii tl).

(** [s.strip()] *)
Definition strip (s : string) : string :=
  string_of_list_ascii (rev (skip_ws (rev (skip_ws (list_ascii_of_string s))))).

(** [re.search('^/dev/nvidia(\d+)$', p)]: the text of group 1, or [None]
    when there is no match.  Without MULTILINE, [$] matches at the end of
    the string or just before a newline that ends it. *)
Definition nvidia_device_re (p : string) : option string :=
  let pre := list_ascii_of_string "/dev/nvidia" in
  let l := list_ascii_of_string p in
  if List.list_eq_dec ascii_dec (firstn (length pre) l) pre then
    let '(ds, tl) := span_digits (skipn (length pre) l) in
    match ds, tl with
    | [], _ => None
    | _, [] => Some (string_of_list_ascii ds)
    | _, [c] => if Ascii.eqb c "010"%char then Some (string_of_list_ascii ds) else None
    | _, _ => None
    end
  else None.

End Py.

(* ------------------------------------------------------------------ *)
(** ** Data model *)

(** Python exceptions raised on the paths of [main.py]. *)
Inductive exn :=
| ValueError (msg : string)
| AttributeError (msg : string)
| OSError (path : string)
| IOError (path : string)
| SystemExit (code : Z).

Inductive res (A : Type) :=
| Ok (a : A)
| Raise (e : exn).
Arguments Ok {A} a.
Arguments Raise {A} e.

(** A handler passed to [signal.signal]: [lambda signup, frame: obj.meth()]
    closes over the object [obj]. *)
Inductive handler :=
| LambdaCallMethod (obj : nat) (meth : string).

(** One entry of [docker_client.get_nvidia_devices_info()['Devices']]. *)
Record Device := { Path : string }.
Record NvidiaInfo := { Devices : list Device }.

(** Observable actions, in the order the program performs them.
    Object references are allocation numbers. *)
Inductive event :=
| EvEnter (fname : string)
| EvLog (msg : string)
| EvLoggingConfig (debug : bool)
| EvStat (path : string)
| EvReadFile (path : string)
| EvGetEnv (name : string)
| EvRawInput (prompt : string)
| EvGetpass
| EvPrint (msg : string)
| EvPrintErr (msg : string)
| EvCpuCount
| EvGetNvidiaDevicesInfo (docker : nat)
| EvImportBoto3
| EvNewBundleServiceClient (r : nat) (server username password : string)
| EvNewDockerClient (r : nat)
| EvNewDockerImageManager (r docker : nat) (work_dir : string) (max_images_bytes : option Z)
| EvNewDockerRunManager (r docker bundle_service image_manager worker : nat)
    (network_prefix : string) (cpuset gpuset : gset Z)
| EvNewBatchClient (r : nat)
| EvNewAwsBatchRunManager (r batch_client : nat) (queue : string) (bundle_service worker : nat)
| EvNewWorker (r : nat) (id : string) (tag : option string) (work_dir : string)
    (max_work_dir_size_bytes : Z) (max_dependencies_serialized_length : Z)
    (shared_file_system : bool) (bundle_service : nat)
| EvSetRunManager (worker run_manager : nat)
| EvRegisterSignal (signum : Z) (h : handler)
| EvMethodCall (obj : nat) (meth : string).

(** The outside world, as seen by the program. *)
Record World := {
  stat_mode : string -> option Z;          (** [os.stat(p).st_mode]; [None]: no such file *)
  file_contents : string -> option string; (** [open(p)]; [None]: cannot be opened *)
  environ : string -> option string;
  stdin_line : string;                     (** what [raw_input] reads *)
  getpass_line : string;                   (** what [getpass.getpass] reads *)
  boto3_importable : bool;
  cpu_count : Z;                           (** [multiprocessing.cpu_count()] *)
  nvidia_devices_info : option NvidiaInfo  (** [docker_client.get_nvidia_devices_info()] *)
}.

(** The parsed command line ([args] after [parser.parse_args()]). *)
Record Args := {
  tag : option string;
  server : string;
  work_dir : string;
  network_prefix : string;
  cpuset : string;
  gpuset : string;
  max_work_dir_size : string;
  max_dependencies_serialized_length : Z;
  max_image_cache_size : option string;
  password_file : option string;
  verbose : bool;
  id_ : string;
  shared_file_system : bool;
  batch_queue : option string
}.

Record St := mkSt { trace : list event; next_ref : nat }.

Definition M (A : Type) := St -> St * res A.

Definition ret {A} (a : A) : M A := fun s => (s, Ok a).
Definition raise {A} (e : exn) : M A := fun s => (s, Raise e).
Definition bind {A B} (m : M A) (k : A -> M B) : M B :=
  fun s => match m s with
           | (s', Ok a) => k a s'
           | (s', Raise e) => (s', Raise e)
           end.

Notation "'let*' x ':=' m 'in' k" := (bind m (fun x => k))
  (at level 200, x name, m at level 100, k at level 200).
Notation "'do*' m 'in' k" := (bind m (fun _ => k))
  (at level 200, m at level 100, k at level 200).

Definition emit (e : event) : M unit :=
  fun s => (mkSt (trace s ++ [e]) (next_ref s), Ok tt).

(** Allocate a new object and record its construction. *)
Definition new (mk : nat -> event) : M nat :=
  fun s => (mkSt (trace s ++ [mk (next_ref s)]) (S (next_ref s)), Ok (next_ref s)).

Fixpoint forM {A B} (f : A -> M B) (l : list A) : M (list B) :=
  match l with
  | [] => ret []
  | x :: r => let* y := f x in let* ys := forM f r in ret (y :: ys)
  end.

Definition run {A} (m : M A) : list event * res A :=
  let '(s, r) := m (mkSt [] 0) in (trace s, r).

Definition lift_res {A} (r : res A) : M A := fun s => (s, r).

(** Python 2 exit status of the process for the outcome of [main()]:
    [SystemExit(c)] exits with [c], any other uncaught exception with 1. *)
Definition exit_status (r : res unit) : Z :=
  match r with
  | Ok _ => 0
  | Raise (SystemExit c) => c
  | Raise _ => 1
  end.

Definition SIGHUP : Z := 1.
Definition SIGINT : Z := 2.
Definition SIGTERM : Z := 15.
Definition S_IRWXG : Z := 56.   (* 0o070 *)
Definition S_IRWXO : Z := 7.    (* 0o007 *)

(** [[int(s) for s in l]]: [None] when some [int(s)] raises. *)
Fixpoint ints (l : list string) : option (list Z) :=
  match l with
  | [] => Some []
  | s :: r => match Py.int_ s, ints r with
              | Some n, Some ns => Some (n :: ns)
              | _, _ => None
              end
  end.

(** [len(xs) == len(set(xs))] *)
Definition distinct (xs : list Z) : bool :=
  (length xs =? size (list_to_set xs : gset Z))%nat.

Definition member (x : Z) (l : list Z) : bool := bool_decide (x ∈ l).

Section Program.

Variable w : World.

(** [formatting.parse_size]: any function; [Raise] when it raises. *)
Variable parse_size : string -> res Z.

(* ------------------------------------------------------------------ *)
(** ** [parse_cpuset_args] and [parse_gpuset_args] *)

Definition multiprocessing_cpu_count : M Z :=
  do* emit EvCpuCount in ret (cpu_count w).

Definition get_nvidia_devices_info (docker_client : nat) : M (option NvidiaInfo) :=
  do* emit (EvGetNvidiaDevicesInfo docker_client) in ret (nvidia_devices_info w).

Definition parse_cpuset_args (arg : string) : M (gset Z) :=
  do* emit (EvEnter "parse_cpuset_args") in
  let* cpu_count := multiprocessing_cpu_count in
  let* cpuset :=
    if String.eqb arg "ALL" then ret (seqZ 0 cpu_count)
    else
      match ints (Py.split "," arg) with
      | None => raise (ValueError "CPUSET_STR invalid format: must be a string of comma-separated integers")
      | Some cpuset =>
          if negb (distinct cpuset) then
            raise (ValueError "CPUSET_STR invalid: CPUs not distinct values")
          else if negb (forallb (fun cpu => member cpu (seqZ 0 cpu_count)) cpuset) then
            raise (ValueError "CPUSET_STR invalid: CPUs out of range")
          else ret cpuset
      end in
  ret (list_to_set cpuset).

(** [m = re.search('^/dev/nvidia(\d+)$', d['Path']); int(m.group(1))] *)
Definition device_number (d : Device) : M Z :=
  match Py.nvidia_device_re (Path d) with
  | None => raise (AttributeError "'NoneType' object has no attribute 'group'")
  | Some g =>
      match Py.int_ g with
      | Some n => ret n
      | None => raise (ValueError g)
      end
  end.

Definition parse_gpuset_args (docker_client : nat) (arg : string) : M (gset Z) :=
  do* emit (EvEnter "parse_gpuset_args") in
  if String.eqb arg "" then ret ∅
  else
    let* info := get_nvidia_devices_info docker_client in
    let* all_gpus :=
      match info with
      | None => ret []
      | Some info => forM device_number (Devices info)
      end in
    if String.eqb arg "ALL" then ret (list_to_set all_gpus)
    else
      match ints (Py.split "," arg) with
      | None => raise (ValueError "GPUSET_STR invalid format: must be a string of comma-separated integers")
      | Some gpuset =>
          if negb (distinct gpuset) then
            raise (ValueError "GPUSET_STR invalid: GPUs not distinct values")
          else if negb (forallb (fun gpu => member gpu all_gpus) gpuset) then
            raise (ValueError "GPUSET_STR invalid: GPUs out of range")
          else ret (list_to_set gpuset)
      end.

(* ------------------------------------------------------------------ *)
(** ** [create_run_manager] *)

(** [import boto3]: whether the import succeeds. *)
Definition import_boto3 : M bool :=
  do* emit EvImportBoto3 in ret (boto3_importable w).

(** The closure [create_run_manager(w)] of [main]; it reads [args],
    [max_images_bytes] and [bundle_service] from the enclosing scope. *)
Definition create_run_manager (args : Args) (max_images_bytes : option Z)
    (bundle_service : nat) (wk : nat) : M nat :=
  do* emit (EvEnter "create_run_manager") in
  match batch_queue args with
  | None =>
      do* emit (EvLog "Using local docker client for run submission.") in
      let* docker := new EvNewDockerClient in
      let* image_manager :=
        new (fun r => EvNewDockerImageManager r docker (work_dir args) max_images_bytes) in
      let* cpuset := parse_cpuset_args (cpuset args) in
      let* gpuset := parse_gpuset_args docker (gpuset args) in
      new (fun r => EvNewDockerRunManager r docker bundle_service image_manager wk
                      (network_prefix args) cpuset gpuset)
  | Some queue =>
      let* ok := import_boto3 in
      if negb ok then
        do* emit (EvLog "Missing dependencies, please install boto3 to enable AWS support.") in
        raise (SystemExit 1)
      else
        do* emit (EvLog ("Using AWS Batch queue " ++ queue ++ " for run submission.")) in
        let* batch_client := new EvNewBatchClient in
        new (fun r => EvNewAwsBatchRunManager r batch_client queue bundle_service wk)
  end.

(** Modelled from the spec: the constructor of [Worker] (worker.py, which is
    not among the sources).  The spec says the execution backend is
    "selected once at startup from configuration; no dynamic re-selection
    at runtime": the constructor builds its run manager by one call of the
    factory [create_run_manager(self)] and keeps only the run manager. *)
Definition Worker (id : string) (tag : option string) (work_dir : string)
    (max_work_dir_size_bytes max_dependencies_serialized_length : Z)
    (shared_file_system : bool) (bundle_service : nat)
    (create_run_manager : nat -> M nat) : M nat :=
  let* self := new (fun r => EvNewWorker r id tag work_dir max_work_dir_size_bytes
                               max_dependencies_serialized_length shared_file_system
                               bundle_service) in
  let* run_manager := create_run_manager self in
  do* emit (EvSetRunManager self run_manager) in
  ret self.

(* ------------------------------------------------------------------ *)
(** ** [main] *)

Definition os_stat_mode (path : string) : M Z :=
  do* emit (EvStat path) in
  match stat_mode w path with
  | Some m => ret m
  | None => raise (OSError path)
  end.

(** [with open(path) as f: username = f.readline().strip();
    password = f.readline().strip()] *)
Definition read_credentials_file (path : string) : M (string * string) :=
  do* emit (EvReadFile path) in
  match file_contents w path with
  | None => raise (IOError path)
  | Some c =>
      let '(line1, rest) := Py.readline c in
      let '(line2, _) := Py.readline rest in
      ret (Py.strip line1, Py.strip line2)
  end.

Definition lax_permissions_msg (path : string) : string :=
  "
Permissions on password file are too lax.
Only the user should be allowed to access the file.
On Linux, run:
chmod 600 " ++ path.

Definition credentials_from_file (path : string) : M (string * string) :=
  let* mode := os_stat_mode path in
  if negb (Z.land mode (Z.lor S_IRWXG S_IRWXO) =? 0) then
    do* emit (EvPrintErr (lax_permissions_msg path)) in
    raise (SystemExit 1)
  else read_credentials_file path.

Definition getenv (name : string) : M (option string) :=
  do* emit (EvGetEnv name) in ret (environ w name).

Definition credentials_from_env : M (string * string) :=
  let* username := getenv "CODALAB_USERNAME" in
  let* username :=
    match username with
    | Some u => ret u
    | None => do* emit (EvRawInput "Username: ") in ret (stdin_line w)
    end in
  let* password := getenv "CODALAB_PASSWORD" in
  let* password :=
    match password with
    | Some p => ret p
    | None => do* emit EvGetpass in ret (getpass_line w)
    end in
  ret (username, password).

(** [if args.password_file:] -- a [str] is true when it is not empty. *)
Definition truthy_path (o : option string) : option string :=
  match o with
  | Some p => if String.eqb p "" then None else Some p
  | None => None
  end.

Definition main (args : Args) : M unit :=
  do* emit (EvLog ("Connecting to " ++ server args)) in
  let* credentials :=
    match truthy_path (password_file args) with
    | Some path => credentials_from_file path
    | None => credentials_from_env
    end in
  let '(username, password) := credentials in
  do* emit (EvLoggingConfig (verbose args)) in
  let* max_work_dir_size_bytes := lift_res (parse_size (max_work_dir_size args)) in
  let max_dependencies_serialized_length := max_dependencies_serialized_length args in
  let* max_images_bytes :=
    match max_image_cache_size args with
    | None => ret None
    | Some sz => let* b := lift_res (parse_size sz) in ret (Some b)
    end in
  let* bundle_service :=
    new (fun r => EvNewBundleServiceClient r (server args) username password) in
  let* worker :=
    Worker (id_ args) (tag args) (work_dir args) max_work_dir_size_bytes
      max_dependencies_serialized_length (shared_file_system args) bundle_service
      (create_run_manager args max_images_bytes bundle_service) in
  do* forM (fun sig => emit (EvRegisterSignal sig (LambdaCallMethod worker "signal")))
        [SIGTERM; SIGINT; SIGHUP] in
  do* emit (EvPrint "Worker started.") in
  emit (EvMethodCall worker "run").

End Program.

(** Delivery of a signal: the registered handler runs. *)
Definition run_handler (h : handler) : M unit :=
  match h with
  | LambdaCallMethod obj meth => emit (EvMethodCall obj meth)
  end.

(* ------------------------------------------------------------------ *)
(** ** The resource partitioner *)

Module Partitioner.

(** Modelled from the spec: the Resource Partitioner of section 4.1 (the
    run managers that allocate CPU and GPU sets are not among the sources).
    A pool of one kind of identifier: the configured total and the
    identifiers currently reserved. *)
Record Pool := mkPool { total : gset Z; reserved : gset Z }.

Definition free (p : Pool) : gset Z := total p ∖ reserved p.

(** Modelled from the spec: [reserve(n)] is first-fit over the unreserved
    identifiers, lowest identifier first; [None] is
    [Fails(InsufficientResources)], when fewer than [n] are free. *)
Definition reserve (n : nat) (p : Pool) : option (gset Z * Pool) :=
  let candidates := merge_sort Z.le (elements (free p)) in
  if (n <=? length candidates)%nat then
    let r : gset Z := list_to_set (take n candidates) in
    Some (r, mkPool (total p) (reserved p ∪ r))
  else None.

(** Modelled from the spec: [release(r)]; releasing identifiers that are
    not reserved is a fatal assertion ([None]). *)
Definition release (r : gset Z) (p : Pool) : option Pool :=
  if bool_decide (r ⊆ reserved p) then Some (mkPool (total p) (reserved p ∖ r))
  else None.

(** The process-wide pool: CPUs and GPUs. *)
Record ResourcePool := { cpus : Pool; gpus : Pool }.
Record ResourceSet := { rs_cpus : gset Z; rs_gpus : gset Z }.

Definition initial (cpu_ids gpu_ids : gset Z) : ResourcePool :=
  {| cpus := mkPool cpu_ids ∅; gpus := mkPool gpu_ids ∅ |}.

(** Modelled from the spec: [reserve(requested_cpu_count, requested_gpu_count)]. *)
Definition reserve_resources (ncpu ngpu : nat) (rp : ResourcePool)
    : option (ResourceSet * ResourcePool) :=
  match reserve ncpu (cpus rp), reserve ngpu (gpus rp) with
  | Some (c, cp), Some (g, gp) =>
      Some ({| rs_cpus := c; rs_gpus := g |}, {| cpus := cp; gpus := gp |})
  | _, _ => None
  end.

(** Modelled from the spec: [release(ResourceSet)]. *)
Definition release_resources (rs : ResourceSet) (rp : ResourcePool) : option ResourcePool :=
  match release (rs_cpus rs) (cpus rp), release (rs_gpus rs) (gpus rp) with
  | Some cp, Some gp => Some {| cpus := cp; gpus := gp |}
  | _, _ => None
  end.

(** A sequence of [reserve] calls, each run keeping what it got. *)
Fixpoint reserve_all (reqs : list (nat * nat)) (rp : ResourcePool)
    : option (list ResourceSet * ResourcePool) :=
  match reqs with
  | [] => Some ([], rp)
  | (c, g) :: rest =>
      match reserve_resources c g rp with
      | None => None
      | Some (rs, rp1) =>
          match reserve_all rest rp1 with
          | None => None
          | Some (sets, rp2) => Some (rs :: sets, rp2)
          end
      end
  end.

Definition valid_pool (p : Pool) : Prop := reserved p ⊆ total p.
Definition valid (rp : ResourcePool) : Prop := valid_pool (cpus rp) /\ valid_pool (gpus rp).

(** Sets held by two different runs share no identifier. *)
Definition pairwise_disjoint (sets : list ResourceSet) : Prop :=
  forall i j a b, i <> j -> sets !! i = Some a -> sets !! j = Some b ->
    rs_cpus a ## rs_cpus b /\ rs_gpus a ## rs_gpus b.

End Partitioner.

(* ------------------------------------------------------------------ *)
(** ** The image cache *)

Module ImageCache.

(** Modelled from the spec: an entry of the image cache of section 4.2
    (docker_image_manager.py is not among the sources). *)
Record CachedImage := {
  image_ref : string;
  size_bytes : Z;
  last_used : Z;
  ref_count : nat
}.

Definition total_size (c : list CachedImage) : Z :=
  fold_right (fun e acc => size_bytes e + acc) 0 c.

(** The least recently used entry that no active run references. *)
Fixpoint lru_unpinned (c : list CachedImage) : option CachedImage :=
  match c with
  | [] => None
  | e :: rest =>
      let best := lru_unpinned rest in
      if (ref_count e =? 0)%nat then
        match best with
        | Some b => if last_used b <? last_used e then Some b else Some e
        | None => Some e
        end
      else best
  end.

Definition remove_image (r : string) (c : list CachedImage) : list CachedImage :=
  filter (fun e => negb (String.eqb (image_ref e) r)) c.

(** Evict one entry at a time until the cache fits [bound] or only pinned
    entries remain. *)
Fixpoint evict_loop (fuel : nat) (bound : Z) (c : list CachedImage) : list CachedImage :=
  match fuel with
  | O => c
  | S fuel =>
      if total_size c <=? bound then c
      else match lru_unpinned c with
           | None => c
           | Some e => evict_loop fuel bound (remove_image (image_ref e) c)
           end
  end.

(** Modelled from the spec: [evict_if_over_budget()] of the manager built
    with [max_images_bytes]: with no bound there is no eviction. *)
Definition evict_if_over_budget (max_images_bytes : option Z) (c : list CachedImage)
    : list CachedImage :=
  match max_images_bytes with
  | None => c
  | Some bound => evict_loop (length c) bound c
  end.

End ImageCache.

(* ------------------------------------------------------------------ *)
(** ** Phases of [main]

    [main] is the start-up phase [main_setup] (credentials, configuration,
    construction of the worker and its run manager) followed by
    [main_tail] (signal handlers, ready indicator, main loop); the lemma
    [main_decompose] proves that this split is [main] itself. *)

Section Phases.

Variable w : World.
Variable parse_size : string -> res Z.

(** The statements of [main] before [Worker(...)]: it yields
    [(bundle_service, max_work_dir_size_bytes, max_images_bytes)]. *)
Definition main_pre (args : Args) : M (nat * Z * option Z) :=
  do* emit (EvLog ("Connecting to " ++ server args)) in
  let* credentials :=
    match truthy_path (password_file args) with
    | Some path => credentials_from_file w path
    | None => credentials_from_env w
    end in
  let '(username, password) := credentials in
  do* emit (EvLoggingConfig (verbose args)) in
  let* max_work_dir_size_bytes := lift_res (parse_size (max_work_dir_size args)) in
  let* max_images_bytes :=
    match max_image_cache_size args with
    | None => ret None
    | Some sz => let* b := lift_res (parse_size sz) in ret (Some b)
    end in
  let* bundle_service :=
    new (fun r => EvNewBundleServiceClient r (server args) username password) in
  ret (bundle_service, max_work_dir_size_bytes, max_images_bytes).

Definition main_setup (args : Args) : M nat :=
  let* pre := main_pre args in
  let '(bundle_service, max_work_dir_size_bytes, max_images_bytes) := pre in
  Worker (id_ args) (tag args) (work_dir args) max_work_dir_size_bytes
    (max_dependencies_serialized_length args) (shared_file_system args) bundle_service
    (create_run_manager w args max_images_bytes bundle_service).

Definition main_tail (worker : nat) : M unit :=
  do* forM (fun sig => emit (EvRegisterSignal sig (LambdaCallMethod worker "signal")))
        [SIGTERM; SIGINT; SIGHUP] in
  do* emit (EvPrint "Worker started.") in
  emit (EvMethodCall worker "run").

End Phases.

Definition startup_tail (worker : nat) : list event :=
  [EvRegisterSignal SIGTERM (LambdaCallMethod worker "signal");
   EvRegisterSignal SIGINT (LambdaCallMethod worker "signal");
   EvRegisterSignal SIGHUP (LambdaCallMethod worker "signal");
   EvPrint "Worker started.";
   EvMethodCall worker "run"].

(** Events of the final phase: printing, signal registration, method calls. *)
Definition lifecycle_event (e : event) : bool :=
  match e with
  | EvPrint _ | EvRegisterSignal _ _ | EvMethodCall _ _ => true
  | _ => false
  end.

(** [m] only appends to the trace, and every event it appends satisfies [P]. *)
Definition ext (P : event -> bool) {A} (m : M A) : Prop :=
  forall s, exists t, trace (fst (m s)) = trace s ++ t /\ forallb P t = true.

(** The GPU device numbers read from the device enumeration: the number of
    every reported path that has the form [/dev/nvidiaN]. *)
Definition discovered_gpus (w : World) : list Z :=
  match nvidia_devices_info w with
  | None => []
  | Some info =>
      flat_map (fun d => match Py.nvidia_device_re (Path d) with
                         | Some g => [Py.digits_value (list_ascii_of_string g)]
                         | None => []
                         end) (Devices info)
  end.

(** Every path that the device enumeration reports has the form [/dev/nvidiaN]. *)
Definition devices_well_formed (w : World) : Prop :=
  match nvidia_devices_info w with
  | None => True
  | Some info => Forall (fun d => is_Some (Py.nvidia_device_re (Path d))) (Devices info)
  end.

(** [p] is [/dev/nvidia] followed by the decimal digits [ds], and possibly
    by one final newline. *)
Definition nvidia_path (p : string) (ds : list ascii) : Prop :=
  ds <> [] /\ Forall (fun c => Py.is_digit c = true) ds /\
  (p = "/dev/nvidia" ++ string_of_list_ascii ds \/
   p = "/dev/nvidia" ++ string_of_list_ascii ds ++ String "010"%char EmptyString)%string.

(** The entry of the factory [create_run_manager]. *)
Definition enters_create_run_manager (e : event) : bool :=
  match e with
  | EvEnter f => String.eqb f "create_run_manager"
  | _ => false
  end.

(** Events of the local Docker back end: the parsing of the CPU and GPU
    sets (and what it consults) and the Docker objects. *)
Definition local_docker_event (e : event) : bool :=
  match e with
  | EvEnter f => String.eqb f "parse_cpuset_args" || String.eqb f "parse_gpuset_args"
  | EvCpuCount | EvGetNvidiaDevicesInfo _ | EvNewDockerClient _
  | EvNewDockerImageManager _ _ _ _ | EvNewDockerRunManager _ _ _ _ _ _ _ _ => true
  | _ => false
  end.

(** The construction of a [Worker]. *)
Definition constructs_worker (e : event) : bool :=
  match e with
  | EvNewWorker _ _ _ _ _ _ _ _ => true
  | _ => false
  end.


(** Example inputs.  A host with four CPUs, whose password file
    [secret.txt] has mode 0o100600 and [lax.txt] mode 0o100644. *)
Definition example_host_with (boto3 : bool) (info : option NvidiaInfo) : World := {|
  stat_mode := fun p =>
    if String.eqb p "secret.txt" then Some 33152
    else if String.eqb p "lax.txt" then Some 33188 else None;
  file_contents := fun p =>
    if String.eqb p "secret.txt"
    then Some ("alice" ++ String "010"%char ("hunter2" ++ String "010"%char EmptyString))%string
    else None;
  environ := fun _ => None;
  stdin_line := "alice";
  getpass_line := "hunter2";
  boto3_importable := boto3;
  cpu_count := 4;
  nvidia_devices_info := info
|}.

Definition example_gpus : NvidiaInfo :=
  {| Devices := [{| Path := "/dev/nvidia0" |}; {| Path := "/dev/nvidia1" |}] |}.

Definition example_host : World := example_host_with true (Some example_gpus).

(** A size parser for the examples ([formatting.parse_size] is not among the
    sources; the program is verified for any [parse_size]). *)
Definition example_parse_size (s : string) : res Z :=
  if String.eqb s "10g" then Ok (10 * 2 ^ 30)
  else if String.eqb s "1g" then Ok (2 ^ 30)
  else Raise (ValueError s).

Definition example_args_with (password_file : option string) (batch_queue : option string)
    (max_image_cache_size : option string) : Args := {|
  tag := None;
  server := "https://worksheets.codalab.org";
  work_dir := "codalab-worker-scratch";
  network_prefix := "codalab_worker_network";
  cpuset := "ALL";
  gpuset := "0";
  max_work_dir_size := "10g";
  max_dependencies_serialized_length := 60000;
  max_image_cache_size := max_image_cache_size;
  password_file := password_file;
  verbose := false;
  id_ := "host(1)";
  shared_file_system := false;
  batch_queue := batch_queue
|}.

Definition example_args : Args := example_args_with (Some "secret.txt"%string) None (Some "1g"%string).

(** A host whose password files all have mode 0o100600 and hold the single
    line [" bob "] with no final newline. *)
Definition single_line_host : World := {|
  stat_mode := fun _ => Some 33152;
  file_contents := fun _ => Some " bob "%string;
  environ := fun _ => None;
  stdin_line := "";
  getpass_line := "";
  boto3_importable := true;
  cpu_count := 4;
  nvidia_devices_info := None
|}.

(* ================================================================== *)
(** * Proofs *)

Module MonadFacts.

Lemma bind_assoc_at {A B C} (m : M A) (k : A -> M B) (k' : B -> M C) (s : St) :
  bind (bind m k) k' s = bind m (fun a => bind (k a) k') s.
Proof. unfold bind. destruct (m s) as [s' [a|e]]; reflexivity. Qed.

Lemma bind_ext_at {A B} (m : M A) (k k' : A -> M B) (s : St) :
  (forall a s', k a s' = k' a s') -> bind m k s = bind m k' s.
Proof. intros H. unfold bind. destruct (m s) as [s' [a|e]]; auto. Qed.

Lemma ext_ret P {A} (a : A) : ext P (ret a).
Proof. intros s. exists []. simpl. split; [by rewrite app_nil_r|done]. Qed.

Lemma ext_raise P {A} (e : exn) : ext P (@raise A e).
Proof. intros s. exists []. simpl. split; [by rewrite app_nil_r|done]. Qed.

Lemma ext_lift_res P {A} (r : res A) : ext P (lift_res r).
Proof. intros s. exists []. simpl. split; [by rewrite app_nil_r|done]. Qed.

Lemma ext_emit P (e : event) : P e = true -> ext P (emit e).
Proof. intros H s. exists [e]. simpl. rewrite H. done. Qed.

Lemma ext_new P (mk : nat -> event) : (forall r, P (mk r) = true) -> ext P (new mk).
Proof. intros H s. exists [mk (next_ref s)]. simpl. rewrite H. done. Qed.

Lemma ext_bind P {A B} (m : M A) (k : A -> M B) :
  ext P m -> (forall a, ext P (k a)) -> ext P (bind m k).
Proof.
  intros Hm Hk s. unfold bind.
  destruct (Hm s) as (t1 & E1 & F1).
  destruct (m s) as [s1 [a|e]] eqn:Em; simpl in *.
  - destruct (Hk a s1) as (t2 & E2 & F2).
    exists (t1 ++ t2). rewrite E2, E1, app_assoc, forallb_app, F1, F2. done.
  - exists t1. done.
Qed.

Lemma ext_forM P {A B} (f : A -> M B) (l : list A) :
  (forall x, ext P (f x)) -> ext P (forM f l).
Proof.
  intros Hf. induction l as [|x l IH]; simpl.
  - apply ext_ret.
  - apply ext_bind; [apply Hf|]. intros y.
    apply ext_bind; [exact IH|]. intros ys. apply ext_ret.
Qed.

End MonadFacts.

Import MonadFacts.

(** Decompose an [ext] goal along the structure of the program. *)
Ltac ext_step :=
  match goal with
  | |- ext _ (bind _ _) => apply ext_bind; [|intro]
  | |- ext _ (ret _) => apply ext_ret
  | |- ext _ (raise _) => apply ext_raise
  | |- ext _ (lift_res _) => apply ext_lift_res
  | |- ext _ (emit _) => apply ext_emit
  | |- ext _ (new _) => apply ext_new; intro
  | |- ext _ (forM _ _) => apply ext_forM; intro
  | |- ext _ (device_number _) => unfold device_number
  | |- ext _ (if ?b then _ else _) => destruct b
  | |- ext _ (match ?x with _ => _ end) => destruct x
  end.

Ltac ext_tac := repeat ext_step.

Module PartitionerFacts.
Import Partitioner.

Lemma size_free (p : Pool) :
  valid_pool p -> size (free p) = (size (total p) - size (reserved p))%nat.
Proof. intros H. unfold free. by apply size_difference. Qed.

Lemma reserve_some (n : nat) (p : Pool) :
  (n <= size (free p))%nat ->
  exists r, reserve n p = Some (r, mkPool (total p) (reserved p ∪ r)) /\
            size r = n /\ r ⊆ free p.
Proof.
  intros Hn. unfold reserve.
  set (cs := merge_sort Z.le (elements (free p))).
  assert (Hperm : cs ≡ₚ elements (free p)) by apply merge_sort_Permutation.
  assert (Hlen : length cs = size (free p)).
  { rewrite Hperm. reflexivity. }
  assert (Hnd : NoDup cs) by (rewrite Hperm; apply NoDup_elements).
  rewrite Hlen. replace ((n <=? size (free p))%nat) with true
    by (symmetry; apply Nat.leb_le; lia).
  eexists. split; [reflexivity|]. split.
  - rewrite size_list_to_set.
    + apply length_take_le. lia.
    + eapply sublist_NoDup; [exact Hnd| apply sublist_take].
  - intros x Hx. apply elem_of_list_to_set in Hx.
    apply subseteq_take in Hx. rewrite Hperm in Hx.
    by apply elem_of_elements in Hx.
Qed.

Lemma reserve_resources_some (c g : nat) (rp : ResourcePool) :
  (c <= size (free (cpus rp)))%nat -> (g <= size (free (gpus rp)))%nat ->
  exists rs, reserve_resources c g rp =
    Some (rs, {| cpus := mkPool (total (cpus rp)) (reserved (cpus rp) ∪ rs_cpus rs);
                 gpus := mkPool (total (gpus rp)) (reserved (gpus rp) ∪ rs_gpus rs) |}) /\
    size (rs_cpus rs) = c /\ size (rs_gpus rs) = g /\
    rs_cpus rs ⊆ free (cpus rp) /\ rs_gpus rs ⊆ free (gpus rp).
Proof.
  intros Hc Hg.
  destruct (reserve_some c (cpus rp) Hc) as (rc & Ec & Sc & Fc).
  destruct (reserve_some g (gpus rp) Hg) as (rg & Eg & Sg & Fg).
  exists {| rs_cpus := rc; rs_gpus := rg |}.
  unfold reserve_resources. rewrite Ec, Eg. simpl. auto.
Qed.

(** Releasing reserved identifiers and asking again for as many succeeds,
    from any consistent state. *)
Lemma release_then_reserve (rp : ResourcePool) (rs : ResourceSet) :
  valid rp -> rs_cpus rs ⊆ reserved (cpus rp) -> rs_gpus rs ⊆ reserved (gpus rp) ->
  exists rp', release_resources rs rp = Some rp' /\
    exists rs' rp'', reserve_resources (size (rs_cpus rs)) (size (rs_gpus rs)) rp'
                     = Some (rs', rp'').
Proof.
  intros [Vc Vg] Hc Hg. unfold release_resources, release.
  rewrite !bool_decide_eq_true_2 by assumption.
  eexists. split; [reflexivity|].
  set (rp' := {| cpus := mkPool (total (cpus rp)) (reserved (cpus rp) ∖ rs_cpus rs);
                 gpus := mkPool (total (gpus rp)) (reserved (gpus rp) ∖ rs_gpus rs) |}).
  assert (Hc' : (size (rs_cpus rs) <= size (free (cpus rp')))%nat).
  { apply subseteq_size. unfold free; simpl. unfold valid_pool in Vc. set_solver. }
  assert (Hg' : (size (rs_gpus rs) <= size (free (gpus rp')))%nat).
  { apply subseteq_size. unfold free; simpl. unfold valid_pool in Vg. set_solver. }
  destruct (reserve_resources_some _ _ rp' Hc' Hg') as (rs' & E & _).
  eauto.
Qed.

Lemma pairwise_disjoint_cons (a : ResourceSet) (sets : list ResourceSet) :
  (forall b, b ∈ sets -> rs_cpus a ## rs_cpus b /\ rs_gpus a ## rs_gpus b) ->
  pairwise_disjoint sets -> pairwise_disjoint (a :: sets).
Proof.
  intros Ha Hp i j x y Hij Hi Hj.
  destruct i as [|i], j as [|j]; simpl in Hi, Hj.
  - congruence.
  - injection Hi as <-. apply Ha. by eapply list_elem_of_lookup_2.
  - injection Hj as <-.
    assert (Hx : x ∈ sets) by (by eapply list_elem_of_lookup_2).
    destruct (Ha x Hx) as [H1 H2]. split; by symmetry.
  - apply (Hp i j); auto.
Qed.

Lemma reserve_all_spec (reqs : list (nat * nat)) (rp : ResourcePool) :
  valid rp ->
  (size (reserved (cpus rp)) + sum_list (map fst reqs) <= size (total (cpus rp)))%nat ->
  (size (reserved (gpus rp)) + sum_list (map snd reqs) <= size (total (gpus rp)))%nat ->
  exists sets rp', reserve_all reqs rp = Some (sets, rp') /\ valid rp' /\
    reserved (cpus rp) ⊆ reserved (cpus rp') /\ reserved (gpus rp) ⊆ reserved (gpus rp') /\
    Forall2 (fun req rs => size (rs_cpus rs) = fst req /\ size (rs_gpus rs) = snd req) reqs sets /\
    Forall (fun rs => rs_cpus rs ⊆ reserved (cpus rp') /\ rs_gpus rs ⊆ reserved (gpus rp') /\
                      rs_cpus rs ## reserved (cpus rp) /\ rs_gpus rs ## reserved (gpus rp)) sets /\
    pairwise_disjoint sets.
Proof.
  revert rp. induction reqs as [|[c g] rest IH]; intros rp Hv Hc Hg.
  - exists [], rp. split; [done|]. split; [done|].
    split; [done|]. split; [done|]. split; [constructor|]. split; [constructor|].
    intros i j a b _ Hi. by rewrite lookup_nil in Hi.
  - simpl in Hc, Hg. destruct Hv as [Vc Vg].
    assert (Fc : (c <= size (free (cpus rp)))%nat) by (rewrite size_free; [lia|done]).
    assert (Fg : (g <= size (free (gpus rp)))%nat) by (rewrite size_free; [lia|done]).
    destruct (reserve_resources_some c g rp Fc Fg) as (rs & E & Sc & Sg & Sub_c & Sub_g).
    set (rp1 := {| cpus := mkPool (total (cpus rp)) (reserved (cpus rp) ∪ rs_cpus rs);
                   gpus := mkPool (total (gpus rp)) (reserved (gpus rp) ∪ rs_gpus rs) |}).
    unfold free in Sub_c, Sub_g. unfold valid_pool in Vc, Vg.
    assert (V1 : valid rp1) by (split; unfold valid_pool; simpl; set_solver).
    assert (Z1c : size (reserved (cpus rp1)) = (size (reserved (cpus rp)) + c)%nat).
    { simpl. rewrite size_union by set_solver. lia. }
    assert (Z1g : size (reserved (gpus rp1)) = (size (reserved (gpus rp)) + g)%nat).
    { simpl. rewrite size_union by set_solver. lia. }
    destruct (IH rp1 V1) as (sets & rp' & E' & V' & Rc & Rg & Hs & Hf & Hp).
    { rewrite Z1c. simpl. lia. }
    { rewrite Z1g. simpl. lia. }
    exists (rs :: sets), rp'. simpl. rewrite E. fold rp1. rewrite E'.
    simpl in Rc, Rg.
    split; [done|]. split; [done|].
    split; [set_solver|]. split; [set_solver|].
    split; [constructor; auto|].
    split.
    + constructor.
      * repeat split; set_solver.
      * eapply Forall_impl; [exact Hf|]. simpl. intros x (? & ? & ? & ?).
        repeat split; set_solver.
    + apply pairwise_disjoint_cons; [|done].
      intros b Hb. rewrite Forall_forall in Hf. destruct (Hf b Hb) as (_ & _ & D1 & D2).
      simpl in D1, D2. split; set_solver.
Qed.

End PartitionerFacts.

Module MainFacts.

Lemma bind_ret_at {A B} (a : A) (k : A -> M B) (s : St) : bind (ret a) k s = k a s.
Proof. reflexivity. Qed.

Section Facts.

Variable w : World.
Variable parse_size : string -> res Z.

Lemma main_decompose (args : Args) (s : St) :
  main w parse_size args s = bind (main_setup w parse_size args) main_tail s.
Proof.
  symmetry. unfold main_setup, main_pre, main.
  repeat match goal with
  | |- bind (bind _ _) _ _ = _ => rewrite bind_assoc_at
  | |- bind (ret _) _ _ = _ => rewrite bind_ret_at; cbv beta iota
  | |- bind ?m _ _ = bind ?m _ _ => apply bind_ext_at; intros ? ?; cbv beta iota
  | |- context [match ?x with _ => _ end] => destruct x; cbv beta iota
  end.
  reflexivity.
Qed.

Lemma main_tail_run (worker : nat) (s : St) :
  main_tail worker s = (mkSt (trace s ++ startup_tail worker) (next_ref s), Ok tt).
Proof. unfold main_tail, bind, emit, ret. simpl. by rewrite <- !app_assoc. Qed.

(** No event of the start-up phase is a print, a signal registration or
    a method call. *)
Lemma main_setup_quiet (args : Args) :
  ext (fun e => negb (lifecycle_event e)) (main_setup w parse_size args).
Proof.
  unfold main_setup, main_pre, Worker, create_run_manager, parse_cpuset_args,
    parse_gpuset_args, credentials_from_file, credentials_from_env, os_stat_mode,
    read_credentials_file, getenv, import_boto3, multiprocessing_cpu_count,
    get_nvidia_devices_info.
  ext_tac; reflexivity.
Qed.

(** What a run of [main] consists of: the start-up phase and, when it
    returns the worker, the final phase. *)
Lemma run_main (args : Args) :
  exists t r, run (main_setup w parse_size args) = (t, r) /\
    forallb (fun e => negb (lifecycle_event e)) t = true /\
    match r with
    | Ok worker => run (main w parse_size args) = (t ++ startup_tail worker, Ok tt)
    | Raise e => run (main w parse_size args) = (t, Raise e)
    end.
Proof.
  destruct (main_setup_quiet args (mkSt [] 0)) as (t & Et & Ft).
  unfold run. rewrite main_decompose. unfold bind.
  destruct (main_setup w parse_size args (mkSt [] 0)) as [s1 [worker|e]]; simpl in Et |- *;
    exists (trace s1); eexists; (split; [reflexivity|]); rewrite Et; (split; [done|]).
  - by rewrite <- !app_assoc.
  - reflexivity.
Qed.

End Facts.
End MainFacts.

Module PyFacts.
Import Py.

Lemma digit_cases (c : ascii) :
  is_digit c = true ->
  c = "0"%char \/ c = "1"%char \/ c = "2"%char \/ c = "3"%char \/ c = "4"%char \/
  c = "5"%char \/ c = "6"%char \/ c = "7"%char \/ c = "8"%char \/ c = "9"%char.
Proof.
  destruct c as [[] [] [] [] [] [] [] []]; vm_compute; intros H;
    try discriminate H; auto 10.
Qed.

Lemma list_ascii_of_string_app (s1 s2 : string) :
  list_ascii_of_string (s1 ++ s2) = list_ascii_of_string s1 ++ list_ascii_of_string s2.
Proof. induction s1 as [|c s1 IH]; simpl; [done|by rewrite IH]. Qed.

Lemma span_digits_app (ds tl : list ascii) :
  Forall (fun c => is_digit c = true) ds ->
  (forall c r, tl = c :: r -> is_digit c = false) ->
  span_digits (ds ++ tl) = (ds, tl).
Proof.
  intros Hd Ht. induction Hd as [|c ds Hc Hds IH]; simpl.
  - destruct tl as [|c r]; [done|]. simpl. by rewrite (Ht c r eq_refl).
  - rewrite Hc, IH. done.
Qed.

Lemma span_digits_inv (l ds tl : list ascii) :
  span_digits l = (ds, tl) ->
  l = ds ++ tl /\ Forall (fun c => is_digit c = true) ds /\
  (forall c r, tl = c :: r -> is_digit c = false).
Proof.
  revert ds tl. induction l as [|c l IH]; intros ds tl E; simpl in E.
  - injection E as <- <-. split; [done|]. split; [constructor|]. by intros.
  - destruct (is_digit c) eqn:Hc.
    + destruct (span_digits l) as [ds' tl'] eqn:E'. injection E as <- <-.
      destruct (IH ds' tl' eq_refl) as (-> & F & T).
      split; [done|]. split; [by constructor|done].
    + injection E as <- <-. split; [done|]. split; [constructor|].
      intros c' r' [= <- <-]. done.
Qed.

Lemma list_ascii_of_string_inj (p q : string) :
  list_ascii_of_string p = list_ascii_of_string q -> p = q.
Proof.
  intros H. rewrite <- (string_of_list_ascii_of_string p), <- (string_of_list_ascii_of_string q).
  by rewrite H.
Qed.

Lemma string_of_list_ascii_inj (l1 l2 : list ascii) :
  string_of_list_ascii l1 = string_of_list_ascii l2 -> l1 = l2.
Proof.
  intros H. rewrite <- (list_ascii_of_string_of_list_ascii l1), <- (list_ascii_of_string_of_list_ascii l2).
  by rewrite H.
Qed.

(** The model of [re.search('^/dev/nvidia(\d+)$', p).group(1)]: the path is
    [/dev/nvidia] followed by one or more digits, possibly followed by one
    newline, and the group is the digits. *)
Lemma nvidia_device_re_spec (p : string) (ds : list ascii) :
  nvidia_device_re p = Some (string_of_list_ascii ds) <->
  ds <> [] /\ Forall (fun c => is_digit c = true) ds /\
  (p = "/dev/nvidia" ++ string_of_list_ascii ds \/
   p = "/dev/nvidia" ++ string_of_list_ascii ds ++ String "010"%char EmptyString)%string.
Proof.
  unfold nvidia_device_re.
  set (pre := list_ascii_of_string "/dev/nvidia").
  assert (Hp : forall tl, list_ascii_of_string p = pre ++ ds ++ tl ->
            p = ("/dev/nvidia" ++ string_of_list_ascii (ds ++ tl))%string).
  { intros tl E. apply list_ascii_of_string_inj.
    by rewrite list_ascii_of_string_app, list_ascii_of_string_of_list_ascii. }
  split.
  - destruct (List.list_eq_dec ascii_dec _ _) as [Hpre|]; [|discriminate].
    destruct (span_digits _) as [ds' tl] eqn:Es.
    destruct (span_digits_inv _ _ _ Es) as (El & Fd & Ft).
    assert (Hl : list_ascii_of_string p = pre ++ ds' ++ tl).
    { pose proof (firstn_skipn (length pre) (list_ascii_of_string p)) as E.
      rewrite Hpre, El in E. by symmetry. }
    intros H.
    destruct ds' as [|c ds']; [discriminate|].
    destruct tl as [|c' [|c'' tl]].
    + injection H as H. apply (string_of_list_ascii_inj (c :: ds')) in H. subst ds.
      split; [done|]. split; [done|]. left.
      rewrite <- (app_nil_r (c :: ds')). apply Hp. done.
    + destruct (Ascii.eqb c' "010") eqn:En; [|discriminate].
      apply Ascii.eqb_eq in En. subst c'.
      injection H as H. apply (string_of_list_ascii_inj (c :: ds')) in H. subst ds.
      split; [done|]. split; [done|]. right.
      rewrite (Hp ["010"%char] Hl). f_equal.
      apply list_ascii_of_string_inj.
      rewrite list_ascii_of_string_app, !list_ascii_of_string_of_list_ascii. reflexivity.
    + discriminate.
  - intros (Hne & Fd & [Ep|Ep]);
      [set (tl := @nil ascii) | set (tl := ["010"%char])];
      assert (Hl : list_ascii_of_string p = pre ++ ds ++ tl)
        by (rewrite Ep, list_ascii_of_string_app; unfold tl;
            rewrite ?list_ascii_of_string_app, list_ascii_of_string_of_list_ascii;
            try rewrite app_nil_r; done);
      rewrite Hl, take_app_length;
      (destruct (List.list_eq_dec ascii_dec pre pre) as [_|]; [|congruence]);
      rewrite drop_app_length, span_digits_app by (try done; unfold tl; intros ? ? [= <- _]; done);
      destruct ds as [|c ds]; try congruence; reflexivity.
Qed.

(** [int(s)] of a string of decimal digits is their value. *)
Lemma int_digits (ds : list ascii) :
  ds <> [] -> Forall (fun c => is_digit c = true) ds ->
  int_ (string_of_list_ascii ds) = Some (digits_value ds).
Proof.
  intros Hne Fd. unfold int_. rewrite list_ascii_of_string_of_list_ascii.
  destruct ds as [|c r]; [congruence|].
  pose proof (Forall_inv Fd) as Hc. simpl in Hc.
  assert (Hs : skip_ws (c :: r) = c :: r).
  { simpl. destruct (digit_cases c Hc) as [->|[->|[->|[->|[->|[->|[->|[->|[->| ->]]]]]]]]];
      reflexivity. }
  rewrite Hs.
  assert (Hsign : match c :: r with
                  | "-"%char :: r0 => (true, r0)
                  | "+"%char :: r0 => (false, r0)
                  | _ => (false, c :: r)
                  end = (false, c :: r)).
  { destruct (digit_cases c Hc) as [->|[->|[->|[->|[->|[->|[->|[->|[->| ->]]]]]]]]];
      reflexivity. }
  rewrite Hsign. cbv beta iota. rewrite Hs.
  rewrite <- (app_nil_r (c :: r)), span_digits_app by (try done; intros ? ? [=]).
  rewrite app_nil_r. reflexivity.
Qed.

End PyFacts.

Module ParseFacts.
Import PyFacts.

Section S.
Variable w : World.

Lemma device_number_pure (d : Device) (s : St) :
  device_number d s = (s, snd (device_number d (mkSt [] 0))).
Proof.
  unfold device_number. destruct (Py.nvidia_device_re _); [destruct (Py.int_ _)|]; reflexivity.
Qed.

Lemma forM_device_number_pure (l : list Device) (s : St) :
  forM device_number l s = (s, snd (forM device_number l (mkSt [] 0))).
Proof.
  revert s. induction l as [|d l IH]; intros s; [reflexivity|]. simpl. unfold bind.
  rewrite (device_number_pure d s), (device_number_pure d (mkSt [] 0)).
  destruct (snd (device_number d (mkSt [] 0))) as [n|e]; [|reflexivity].
  rewrite IH, (IH (mkSt [] 0)). simpl.
  destruct (snd (forM device_number l (mkSt [] 0))); reflexivity.
Qed.

Lemma device_number_ok (d : Device) (s : St) :
  is_Some (Py.nvidia_device_re (Path d)) ->
  exists g, Py.nvidia_device_re (Path d) = Some g /\
    device_number d s = (s, Ok (Py.digits_value (list_ascii_of_string g))).
Proof.
  intros [g Hg]. exists g. split; [done|]. unfold device_number. rewrite Hg.
  assert (Hi : Py.int_ g = Some (Py.digits_value (list_ascii_of_string g))).
  { rewrite <- (string_of_list_ascii_of_string g) in Hg.
    apply nvidia_device_re_spec in Hg as (Hne & Fd & _).
    rewrite <- (string_of_list_ascii_of_string g) at 1. by apply int_digits. }
  by rewrite Hi.
Qed.

Lemma forM_device_number_ok (l : list Device) (s : St) :
  Forall (fun d => is_Some (Py.nvidia_device_re (Path d))) l ->
  forM device_number l s =
    (s, Ok (flat_map (fun d => match Py.nvidia_device_re (Path d) with
                               | Some g => [Py.digits_value (list_ascii_of_string g)]
                               | None => []
                               end) l)).
Proof.
  intros F. induction F as [|d l Hd F IH]; [reflexivity|].
  simpl. unfold bind. destruct (device_number_ok d s Hd) as (g & Eg & ->).
  rewrite IH. simpl. rewrite Eg. reflexivity.
Qed.

Lemma all_gpus_ok (docker : nat) (s : St) :
  devices_well_formed w ->
  (let* info := get_nvidia_devices_info w docker in
   match info with
   | None => ret []
   | Some info => forM device_number (Devices info)
   end) s
  = (mkSt (trace s ++ [EvGetNvidiaDevicesInfo docker]) (next_ref s), Ok (discovered_gpus w)).
Proof.
  unfold devices_well_formed, discovered_gpus, get_nvidia_devices_info.
  intros H. unfold bind, emit, ret. simpl.
  destruct (nvidia_devices_info w) as [info|]; [|reflexivity].
  by rewrite forM_device_number_ok.
Qed.

Lemma split_aux_nonempty (sep : ascii) (l cur : list ascii) : Py.split_aux sep l cur <> [].
Proof.
  revert cur. induction l as [|c l IH]; intros cur; simpl; [done|].
  destruct (Ascii.eqb c sep); [done|apply IH].
Qed.

Lemma ints_nonempty (arg : string) (l : list Z) :
  ints (Py.split "," arg) = Some l -> l <> [].
Proof.
  unfold Py.split. destruct (Py.split_aux _ _ _) as [|x r] eqn:E.
  - by apply split_aux_nonempty in E.
  - simpl. destruct (Py.int_ x), (ints r); congruence.
Qed.

Lemma distinct_NoDup (l : list Z) : distinct l = true <-> NoDup l.
Proof.
  unfold distinct. rewrite Nat.eqb_eq.
  assert (Hle : forall l : list Z, (size (list_to_set l : gset Z) <= length l)%nat).
  { clear l. induction l as [|x l IH].
    - change (size (∅ : gset Z) <= 0)%nat. rewrite size_empty. lia.
    - change (size ({[x]} ∪ list_to_set l : gset Z) <= S (length l))%nat.
      pose proof (size_union_alt {[x]} (list_to_set l : gset Z)).
      pose proof (subseteq_size ((list_to_set l : gset Z) ∖ {[x]}) (list_to_set l) ltac:(set_solver)).
      rewrite size_singleton in *. lia. }
  split.
  - induction l as [|x l IH]; intros E; [constructor|].
    change (S (length l) = size ({[x]} ∪ list_to_set l : gset Z)) in E. destruct (decide (x ∈ (list_to_set l : gset Z))) as [Hx|Hx].
    + assert (Hsub : ({[x]} ∪ list_to_set l : gset Z) = list_to_set l) by set_solver.
      rewrite Hsub in E. specialize (Hle l). lia.
    + rewrite size_union in E by set_solver. rewrite size_singleton in E.
      constructor.
      * by rewrite elem_of_list_to_set in Hx.
      * apply IH. lia.
  - intros Hnd. symmetry. by apply size_list_to_set.
Qed.

Lemma member_seqZ (n : Z) (l : list Z) :
  forallb (fun x => member x (seqZ 0 n)) l = true <-> Forall (fun x => 0 <= x < n) l.
Proof.
  rewrite forallb_forall, Forall_forall. unfold member.
  split; intros H x Hx.
  - specialize (H x (proj1 (list_elem_of_In _ _) Hx)).
    apply bool_decide_eq_true, elem_of_seqZ in H. lia.
  - apply bool_decide_eq_true, elem_of_seqZ. apply list_elem_of_In in Hx.
    specialize (H x Hx). lia.
Qed.

Lemma member_list (g l : list Z) :
  forallb (fun x => member x g) l = true <-> Forall (fun x => x ∈ g) l.
Proof.
  rewrite forallb_forall, Forall_forall. unfold member.
  split; intros H x Hx.
  - apply (bool_decide_eq_true (x ∈ g)), H, list_elem_of_In, Hx.
  - apply (bool_decide_eq_true (x ∈ g)), H, list_elem_of_In, Hx.
Qed.

Ltac unfold_parse :=
  unfold parse_cpuset_args, parse_gpuset_args, multiprocessing_cpu_count,
    get_nvidia_devices_info, bind, emit, ret, raise; simpl.

Lemma parse_cpuset_args_all (s : St) :
  parse_cpuset_args w "ALL" s =
    (mkSt (trace s ++ [EvEnter "parse_cpuset_args"; EvCpuCount]) (next_ref s),
     Ok (list_to_set (seqZ 0 (cpu_count w)))).
Proof. unfold_parse. by rewrite <- app_assoc. Qed.

Lemma parse_cpuset_args_explicit (arg : string) (s : St) :
  arg <> "ALL"%string ->
  parse_cpuset_args w arg s =
    (mkSt (trace s ++ [EvEnter "parse_cpuset_args"; EvCpuCount]) (next_ref s),
     match ints (Py.split "," arg) with
     | Some l =>
         if bool_decide (NoDup l /\ Forall (fun x => 0 <= x < cpu_count w) l)
         then Ok (list_to_set l)
         else Raise (ValueError
           (if distinct l then "CPUSET_STR invalid: CPUs out of range"
            else "CPUSET_STR invalid: CPUs not distinct values"))
     | None => Raise (ValueError "CPUSET_STR invalid format: must be a string of comma-separated integers")
     end).
Proof.
  intros Hne. unfold_parse. rewrite (proj2 (String.eqb_neq _ _) Hne).
  rewrite <- app_assoc.
  destruct (ints _) as [l|]; [|reflexivity].
  destruct (distinct l) eqn:Ed; simpl.
  - destruct (forallb _ l) eqn:Ef; simpl.
    + rewrite bool_decide_eq_true_2; [reflexivity|].
      split; [by apply distinct_NoDup|by apply member_seqZ].
    + rewrite bool_decide_eq_false_2; [reflexivity|].
      intros [_ F]. apply member_seqZ in F. congruence.
  - rewrite bool_decide_eq_false_2; [reflexivity|].
    intros [Nd _]. apply distinct_NoDup in Nd. congruence.
Qed.

Lemma parse_gpuset_args_empty (docker : nat) (s : St) :
  parse_gpuset_args w docker "" s =
    (mkSt (trace s ++ [EvEnter "parse_gpuset_args"]) (next_ref s), Ok ∅).
Proof. reflexivity. Qed.

Lemma parse_gpuset_args_all (docker : nat) (s : St) :
  devices_well_formed w ->
  parse_gpuset_args w docker "ALL" s =
    (mkSt (trace s ++ [EvEnter "parse_gpuset_args"; EvGetNvidiaDevicesInfo docker]) (next_ref s),
     Ok (list_to_set (discovered_gpus w))).
Proof.
  unfold devices_well_formed, discovered_gpus. intros H. unfold_parse.
  rewrite <- app_assoc.
  destruct (nvidia_devices_info w) as [info|]; [|reflexivity].
  by rewrite forM_device_number_ok.
Qed.

Lemma parse_gpuset_args_explicit (docker : nat) (arg : string) (s : St) :
  arg <> ""%string -> arg <> "ALL"%string -> devices_well_formed w ->
  parse_gpuset_args w docker arg s =
    (mkSt (trace s ++ [EvEnter "parse_gpuset_args"; EvGetNvidiaDevicesInfo docker]) (next_ref s),
     match ints (Py.split "," arg) with
     | Some l =>
         if bool_decide (NoDup l /\ Forall (fun x => x ∈ discovered_gpus w) l)
         then Ok (list_to_set l)
         else Raise (ValueError
           (if distinct l then "GPUSET_STR invalid: GPUs out of range"
            else "GPUSET_STR invalid: GPUs not distinct values"))
     | None => Raise (ValueError "GPUSET_STR invalid format: must be a string of comma-separated integers")
     end).
Proof.
  intros Hne Hne' Hwf. unfold_parse.
  rewrite (proj2 (String.eqb_neq _ _) Hne).
  assert (Hall : (match nvidia_devices_info w with
                  | Some info => forM device_number (Devices info)
                  | None => fun s0 => (s0, Ok [])
                  end (mkSt (trace s ++ [EvEnter "parse_gpuset_args"] ++
                                [EvGetNvidiaDevicesInfo docker]) (next_ref s)))
             = (mkSt (trace s ++ [EvEnter "parse_gpuset_args"] ++
                                [EvGetNvidiaDevicesInfo docker]) (next_ref s),
                Ok (discovered_gpus w))).
  { unfold devices_well_formed, discovered_gpus in *.
    destruct (nvidia_devices_info w) as [info|]; [|reflexivity].
    by rewrite forM_device_number_ok. }
  cbn [trace next_ref]. rewrite <- app_assoc, Hall. simpl.
  rewrite (proj2 (String.eqb_neq _ _) Hne').
  destruct (ints _) as [l|]; [|reflexivity].
  destruct (distinct l) eqn:Ed; simpl.
  - destruct (forallb _ l) eqn:Ef; simpl.
    + rewrite bool_decide_eq_true_2; [reflexivity|].
      split; [by apply distinct_NoDup|by apply member_list].
    + rewrite bool_decide_eq_false_2; [reflexivity|].
      intros [_ F]. apply member_list in F. congruence.
  - rewrite bool_decide_eq_false_2; [reflexivity|].
    intros [Nd _]. apply distinct_NoDup in Nd. congruence.
Qed.

Lemma parse_cpuset_args_at (arg : string) (s : St) :
  parse_cpuset_args w arg s =
    (mkSt (trace s ++ [EvEnter "parse_cpuset_args"; EvCpuCount]) (next_ref s),
     snd (run (parse_cpuset_args w arg))).
Proof.
  destruct (String.eqb arg "ALL") eqn:E.
  - apply String.eqb_eq in E. subst. by rewrite !parse_cpuset_args_all.
  - apply String.eqb_neq in E. unfold run. by rewrite !parse_cpuset_args_explicit.
Qed.

Lemma parse_gpuset_args_at (docker : nat) (arg : string) (s : St) :
  parse_gpuset_args w docker arg s =
    (mkSt (trace s ++ (if String.eqb arg "" then [EvEnter "parse_gpuset_args"]
                       else [EvEnter "parse_gpuset_args"; EvGetNvidiaDevicesInfo docker]))
          (next_ref s),
     snd (run (parse_gpuset_args w docker arg))).
Proof.
  destruct (String.eqb arg "") eqn:E.
  - apply String.eqb_eq in E. subst. reflexivity.
  - unfold run. unfold_parse. rewrite E. cbn [trace next_ref]. rewrite <- app_assoc.
    set (s1 := mkSt (trace s ++ [EvEnter "parse_gpuset_args"] ++ [EvGetNvidiaDevicesInfo docker]) (next_ref s)).
    set (s0 := mkSt ([EvEnter "parse_gpuset_args"] ++ [EvGetNvidiaDevicesInfo docker]) 0).
    assert (Hall : forall s', (match nvidia_devices_info w with
                  | Some info => forM device_number (Devices info)
                  | None => fun s0 => (s0, Ok [])
                  end s') = (s', snd (match nvidia_devices_info w with
                  | Some info => forM device_number (Devices info)
                  | None => fun s0 => (s0, Ok [])
                  end (mkSt [] 0)))).
    { intros s'. destruct (nvidia_devices_info w); [|reflexivity].
      apply forM_device_number_pure. }
    rewrite (Hall s1), (Hall s0). simpl.
    destruct (snd _) as [all|e]; [|reflexivity].
    destruct (String.eqb arg "ALL"); [reflexivity|].
    destruct (ints _) as [l|]; [|reflexivity].
    destruct (negb (distinct l)); [reflexivity|].
    destruct (negb (forallb _ l)); reflexivity.
Qed.



Lemma discovered_gpus_none :
  nvidia_devices_info w = None -> discovered_gpus w = [].
Proof. unfold discovered_gpus. by intros ->. Qed.

Lemma forM_device_number_bad (l : list Device) (d0 : Device) (s : St) :
  d0 ∈ l -> Py.nvidia_device_re (Path d0) = None ->
  snd (forM device_number l s)
    = Raise (AttributeError "'NoneType' object has no attribute 'group'").
Proof.
  revert s. induction l as [|d l IH]; intros s Hin Hn; [by apply elem_of_nil in Hin|].
  simpl. unfold bind. destruct (Py.nvidia_device_re (Path d)) as [g|] eqn:E.
  - destruct (device_number_ok d s ltac:(by rewrite E)) as (g' & _ & ->).
    apply elem_of_cons in Hin as [->|Hin]; [congruence|].
    specialize (IH s Hin Hn). destruct (forM device_number l s) as [s' r].
    simpl in IH. by subst r.
  - unfold device_number. by rewrite E.
Qed.

Lemma not_nvidia_path (p : string) :
  ~ (exists ds, nvidia_path p ds) -> Py.nvidia_device_re p = None.
Proof.
  intros Hn. destruct (Py.nvidia_device_re p) as [g|] eqn:E; [|done].
  exfalso. apply Hn. exists (list_ascii_of_string g).
  apply nvidia_device_re_spec. by rewrite string_of_list_ascii_of_string.
Qed.

Lemma parse_gpuset_args_bad_path (docker : nat) (arg : string) (info : NvidiaInfo)
    (d : Device) :
  arg <> ""%string -> nvidia_devices_info w = Some info -> d ∈ Devices info ->
  ~ (exists ds, nvidia_path (Path d) ds) ->
  snd (run (parse_gpuset_args w docker arg))
    = Raise (AttributeError "'NoneType' object has no attribute 'group'").
Proof.
  intros Hne Hi Hd Hp. apply not_nvidia_path in Hp. unfold run. unfold_parse.
  rewrite (proj2 (String.eqb_neq _ _) Hne). cbn [trace next_ref]. rewrite Hi.
  rewrite forM_device_number_pure, (forM_device_number_bad _ d _ Hd Hp). reflexivity.
Qed.

End S.
End ParseFacts.

Module StartupFacts.
Import MainFacts.

Lemma ext_eq P {A} (m m' : M A) : (forall s, m s = m' s) -> ext P m' -> ext P m.
Proof. intros E H s. rewrite E. apply H. Qed.

Lemma bind_emit_at {A} (e : event) (k : unit -> M A) (s : St) :
  bind (emit e) k s = k tt (mkSt (trace s ++ [e]) (next_ref s)).
Proof. reflexivity. Qed.

Lemma ext_bind_pure P {A B} (m : M A) (a : A) (k : A -> M B) :
  (forall s, m s = (s, Ok a)) -> ext P (k a) -> ext P (bind m k).
Proof. intros E H s. unfold bind. rewrite E. apply H. Qed.

Lemma ext_run_elem P {A} (m : M A) (e : event) :
  ext P m -> e ∈ fst (run m) -> P e = true.
Proof.
  intros H Hin. destruct (H (mkSt [] 0)) as (t & E & F).
  unfold run in Hin. destruct (m (mkSt [] 0)) as [s1 r]. simpl in E, Hin.
  rewrite E in Hin. rewrite forallb_forall in F. by apply F, list_elem_of_In.
Qed.

Section S.
Variable w : World.
Variable parse_size : string -> res Z.

(** The events of [main] up to the end of the credentials: a [EvReadFile p]
    occurs only for the password file [p], when it is not empty and its
    permission bits for group and others are all clear. *)
Lemma main_read_file_guarded (args : Args) :
  ext (fun e => match e with
                | EvReadFile p =>
                    match password_file args, stat_mode w p with
                    | Some p0, Some m =>
                        String.eqb p p0 && negb (String.eqb p "") &&
                        (Z.land m (Z.lor S_IRWXG S_IRWXO) =? 0)
                    | _, _ => false
                    end
                | _ => true
                end) (main w parse_size args).
Proof.
  unfold main. apply ext_bind; [by apply ext_emit|intros _].
  apply ext_bind.
  - destruct (truthy_path (password_file args)) as [path|] eqn:Et.
    + assert (Hp : password_file args = Some path /\ String.eqb path "" = false).
      { destruct (password_file args) as [p0|]; simpl in Et; [|done].
        destruct (String.eqb p0 "") eqn:E0; [done|]. by injection Et as ->. }
      destruct Hp as [Hp Hne].
      unfold credentials_from_file, os_stat_mode.
      eapply ext_eq; [intros s; apply bind_assoc_at|].
      apply ext_bind; [by apply ext_emit|intros _].
      destruct (stat_mode w path) as [mode|] eqn:Es.
      * eapply ext_bind_pure; [intros s; reflexivity|].
        destruct (Z.land mode (Z.lor S_IRWXG S_IRWXO) =? 0) eqn:Ez; simpl.
        -- unfold read_credentials_file. apply ext_bind.
           ++ apply ext_emit. rewrite Hp, Es, String.eqb_refl, Hne, Ez. done.
           ++ intros _. ext_tac; reflexivity.
        -- ext_tac; reflexivity.
      * apply (ext_eq _ _ (raise (OSError path))); [reflexivity|apply ext_raise].
    + unfold credentials_from_env, getenv. ext_tac; reflexivity.
  - intros [u pw].
    unfold Worker, create_run_manager, parse_cpuset_args, parse_gpuset_args,
      import_boto3, multiprocessing_cpu_count, get_nvidia_devices_info.
    ext_tac; reflexivity.
Qed.

(** With a non-empty password file whose permission bits for group or others
    are set, [main] logs, stats the file, prints the complaint and exits. *)
Lemma main_lax_password_file (args : Args) (p : string) (mode : Z) :
  password_file args = Some p -> p <> ""%string -> stat_mode w p = Some mode ->
  Z.land mode (Z.lor S_IRWXG S_IRWXO) <> 0 ->
  run (main w parse_size args)
    = ([EvLog ("Connecting to " ++ server args); EvStat p; EvPrintErr (lax_permissions_msg p)],
       Raise (SystemExit 1)).
Proof.
  intros Hp Hne Hs Hz. unfold run, main, truthy_path. rewrite Hp.
  rewrite (proj2 (String.eqb_neq _ _) Hne).
  unfold credentials_from_file, os_stat_mode, bind, emit, ret, raise. simpl.
  rewrite Hs. rewrite (proj2 (Z.eqb_neq _ _) Hz). reflexivity.
Qed.

Lemma Worker_at (id : string) (tag : option string) (wd : string) (mw md : Z) (sfs : bool)
    (bs : nat) (crm : nat -> M nat) (s : St) :
  Worker id tag wd mw md sfs bs crm s =
    match crm (next_ref s) (mkSt (trace s ++ [EvNewWorker (next_ref s) id tag wd mw md sfs bs])
                                 (S (next_ref s))) with
    | (s2, Ok rm) => (mkSt (trace s2 ++ [EvSetRunManager (next_ref s) rm]) (next_ref s2),
                      Ok (next_ref s))
    | (s2, Raise e) => (s2, Raise e)
    end.
Proof. unfold Worker, bind, new, emit, ret. simpl. by destruct (crm _ _) as [s2 [rm|e]]. Qed.

Lemma main_parts (args : Args) :
  run (main w parse_size args) =
    match main_pre w parse_size args (mkSt [] 0) with
    | (s1, Raise e) => (trace s1, Raise e)
    | (s1, Ok (bs, mw, mib)) =>
        match Worker (id_ args) (tag args) (work_dir args) mw
                (max_dependencies_serialized_length args) (shared_file_system args) bs
                (create_run_manager w args mib bs) s1 with
        | (s2, Raise e) => (trace s2, Raise e)
        | (s2, Ok wk) => (trace s2 ++ startup_tail wk, Ok tt)
        end
    end.
Proof.
  unfold run. rewrite main_decompose. unfold main_setup. rewrite bind_assoc_at.
  unfold bind at 1. destruct (main_pre _ _ _ _) as [s1 [[[bs mw] mib]|e]]; [|reflexivity].
  unfold bind. destruct (Worker _ _ _ _ _ _ _ _ _) as [s2 [wk|e]]; [|reflexivity].
  rewrite main_tail_run. reflexivity.
Qed.

Lemma main_pre_no_factory (args : Args) :
  ext (fun e => negb (enters_create_run_manager e)) (main_pre w parse_size args).
Proof.
  unfold main_pre, credentials_from_file, credentials_from_env, os_stat_mode,
    read_credentials_file, getenv.
  ext_tac; reflexivity.
Qed.

(** One call of [create_run_manager] enters it once and calls nothing that
    enters it again. *)
Lemma create_run_manager_enters_once (args : Args) (mib : option Z) (bs wk : nat) (s : St) :
  exists t, trace (fst (create_run_manager w args mib bs wk s))
              = trace s ++ EvEnter "create_run_manager" :: t /\
            forallb (fun e => negb (enters_create_run_manager e)) t = true.
Proof.
  unfold create_run_manager.
  match goal with |- context [bind (emit _) ?k s] =>
    assert (Hk : forall a, ext (fun ev => negb (enters_create_run_manager ev)) (k a)) end.
  { intros _. unfold parse_cpuset_args, parse_gpuset_args, import_boto3,
      multiprocessing_cpu_count, get_nvidia_devices_info.
    ext_tac; reflexivity. }
  rewrite bind_emit_at. destruct (Hk tt (mkSt (trace s ++ [EvEnter "create_run_manager"])
                                             (next_ref s))) as (t & E & F).
  exists t. split; [|done]. rewrite E. simpl. by rewrite <- app_assoc.
Qed.

(** With a batch queue, [create_run_manager] performs no event of the local
    Docker back end. *)
Lemma create_run_manager_batch_local_free (args : Args) (q : string) (mib : option Z)
    (bs wk : nat) :
  batch_queue args = Some q ->
  ext (fun e => negb (local_docker_event e)) (create_run_manager w args mib bs wk).
Proof. intros Hq. unfold create_run_manager, import_boto3. rewrite Hq. ext_tac; reflexivity. Qed.

Lemma main_batch_local_free (args : Args) (q : string) :
  batch_queue args = Some q ->
  ext (fun e => negb (local_docker_event e)) (main w parse_size args).
Proof.
  intros Hq. unfold main, Worker, credentials_from_file, credentials_from_env, os_stat_mode,
    read_credentials_file, getenv.
  ext_tac; try reflexivity. by apply (create_run_manager_batch_local_free args q).
Qed.

(** The bound given to [DockerImageManager] is the [max_images_bytes] that
    [main] computes. *)
Lemma main_image_manager_bound (args : Args) (mib : option Z) :
  (forall s, (match max_image_cache_size args with
              | None => ret None
              | Some sz => let* b := lift_res (parse_size sz) in ret (Some b)
              end) s = (s, Ok mib)) ->
  ext (fun e => match e with
                | EvNewDockerImageManager _ _ _ b => bool_decide (b = mib)
                | _ => true
                end) (main w parse_size args).
Proof.
  intros Hm. unfold main, Worker, create_run_manager, parse_cpuset_args,
    parse_gpuset_args, credentials_from_file, credentials_from_env, os_stat_mode,
    read_credentials_file, getenv, import_boto3, multiprocessing_cpu_count,
    get_nvidia_devices_info.
  set (mm := match max_image_cache_size args with
             | None => ret None
             | Some sz => let* b := lift_res (parse_size sz) in ret (Some b)
             end) in *.
  repeat first [ match goal with |- ext _ (bind mm _) =>
                   eapply ext_bind_pure; [exact Hm|]; cbv beta end
               | ext_step ].
  all: try reflexivity.
  all: by apply bool_decide_eq_true_2.
Qed.

End S.
End StartupFacts.

Module Claims.
Import MainFacts PyFacts ParseFacts StartupFacts.

Lemma quiet_lookup (t : list event) (i : nat) (e : event) :
  forallb (fun e => negb (lifecycle_event e)) t = true -> t !! i = Some e ->
  lifecycle_event e = false.
Proof.
  intros F L. apply list_elem_of_lookup_2, list_elem_of_In in L.
  rewrite forallb_forall in F. apply F in L. by apply negb_true_iff.
Qed.

(** Claim C7: the ready indicator [Worker started.] is printed only once the
    start-up phase (credentials, configuration, construction of the worker
    and of its run manager) has returned the worker and the three signal
    handlers are registered, and it is the last event before the main loop
    [worker.run()]. *)
Theorem main_ready_indicator (w : World) (parse_size : string -> res Z) (args : Args) (i : nat) :
  fst (run (main w parse_size args)) !! i = Some (EvPrint "Worker started.") ->
  exists t_setup worker,
    run (main_setup w parse_size args) = (t_setup, Ok worker) /\
    fst (run (main w parse_size args)) = t_setup ++ startup_tail worker /\
    i = (length t_setup + 3)%nat.
Proof.
  destruct (run_main w parse_size args) as (t & r & Es & F & Em).
  destruct r as [worker|e]; rewrite Em; simpl; intros L.
  - exists t, worker. split; [done|]. split; [done|].
    rewrite lookup_app in L. destruct (t !! i) eqn:Ti.
    + injection L as ->. apply (quiet_lookup _ _ _ F) in Ti. discriminate.
    + apply lookup_ge_None in Ti.
      destruct (i - length t)%nat as [|[|[|[|[|k]]]]] eqn:Ek; simpl in L;
        try discriminate. lia.
  - exfalso. apply (quiet_lookup _ _ _ F) in L. discriminate.
Qed.

Lemma main_ready_indicator_witness :
  fst (run (main example_host example_parse_size example_args)) !! 19%nat
    = Some (EvPrint "Worker started.") /\
  exists t_setup worker,
    run (main_setup example_host example_parse_size example_args) = (t_setup, Ok worker) /\
    fst (run (main example_host example_parse_size example_args))
      = t_setup ++ startup_tail worker /\
    19%nat = (length t_setup + 3)%nat.
Proof.
  split; [vm_compute; reflexivity|].
  apply (main_ready_indicator example_host example_parse_size example_args 19).
  vm_compute. reflexivity.
Defined.

(** Claim C6: when the main loop [worker.run()] of a worker is entered,
    a handler for each of SIGTERM, SIGINT and SIGHUP has been registered
    before it; every handler [main] registers is
    [lambda signup, frame: worker.signal()] on that worker, and delivering
    it calls [worker.signal()]. *)
Theorem main_signal_handlers (w : World) (parse_size : string -> res Z) (args : Args)
    (j worker : nat) :
  fst (run (main w parse_size args)) !! j = Some (EvMethodCall worker "run") ->
  (exists t_setup, run (main_setup w parse_size args) = (t_setup, Ok worker)) /\
  (forall sig, sig ∈ [SIGTERM; SIGINT; SIGHUP] -> exists i, (i < j)%nat /\
     fst (run (main w parse_size args)) !! i
       = Some (EvRegisterSignal sig (LambdaCallMethod worker "signal"))) /\
  (forall i sig h, fst (run (main w parse_size args)) !! i = Some (EvRegisterSignal sig h) ->
     h = LambdaCallMethod worker "signal") /\
  (forall s, run_handler (LambdaCallMethod worker "signal") s
     = (mkSt (trace s ++ [EvMethodCall worker "signal"]) (next_ref s), Ok tt)).
Proof.
  destruct (run_main w parse_size args) as (t & r & Es & F & Em).
  destruct r as [wk|e]; rewrite Em; simpl; intros L.
  - rewrite lookup_app in L. destruct (t !! j) eqn:Tj.
    { injection L as ->. apply (quiet_lookup _ _ _ F) in Tj. discriminate. }
    apply lookup_ge_None in Tj.
    destruct (j - length t)%nat as [|[|[|[|[|k]]]]] eqn:Ek; simpl in L;
      try discriminate.
    injection L as ->.
    split; [eauto|]. split; [|split].
    + intros sig Hsig.
      assert (Hr : forall k, (t ++ startup_tail worker) !! (length t + k)%nat
                             = startup_tail worker !! k).
      { intros k. rewrite lookup_app_r by lia. f_equal. lia. }
      repeat rewrite elem_of_cons in Hsig. rewrite elem_of_nil in Hsig.
      destruct Hsig as [->|[->|[->|[]]]].
      * exists (length t + 0)%nat. rewrite Hr. split; [lia|done].
      * exists (length t + 1)%nat. rewrite Hr. split; [lia|done].
      * exists (length t + 2)%nat. rewrite Hr. split; [lia|done].
    + intros i sig h Li. rewrite lookup_app in Li. destruct (t !! i) eqn:Ti.
      * injection Li as ->. apply (quiet_lookup _ _ _ F) in Ti. discriminate.
      * destruct (i - length t)%nat as [|[|[|[|[|k']]]]]; simpl in Li;
          simplify_eq; try done; by rewrite lookup_nil in Li.
    + intros s. reflexivity.
  - exfalso. apply (quiet_lookup _ _ _ F) in L. discriminate.
Qed.

Lemma main_signal_handlers_witness :
  fst (run (main example_host example_parse_size example_args)) !! 20%nat
    = Some (EvMethodCall 1 "run") /\
  (exists t_setup, run (main_setup example_host example_parse_size example_args)
                     = (t_setup, Ok 1%nat)) /\
  (forall sig, sig ∈ [SIGTERM; SIGINT; SIGHUP] -> exists i, (i < 20)%nat /\
     fst (run (main example_host example_parse_size example_args)) !! i
       = Some (EvRegisterSignal sig (LambdaCallMethod 1 "signal"))) /\
  (forall i sig h,
     fst (run (main example_host example_parse_size example_args)) !! i
       = Some (EvRegisterSignal sig h) ->
     h = LambdaCallMethod 1 "signal") /\
  (forall s, run_handler (LambdaCallMethod 1 "signal") s
     = (mkSt (trace s ++ [EvMethodCall 1 "signal"]) (next_ref s), Ok tt)).
Proof.
  split; [vm_compute; reflexivity|].
  apply (main_signal_handlers example_host example_parse_size example_args 20 1).
  vm_compute. reflexivity.
Defined.







(** Claim C8: [parse_gpuset_args(docker, '')] returns the empty set and its
    only event is its entry: the device enumeration is not consulted.  When
    the enumeration returns no information ([None]), ["ALL"] gives the
    empty set and every other non-empty argument raises ValueError. *)
Theorem parse_gpuset_args_no_devices (w : World) (docker : nat) :
  (forall s, parse_gpuset_args w docker "" s
     = (mkSt (trace s ++ [EvEnter "parse_gpuset_args"]) (next_ref s), Ok ∅)) /\
  (nvidia_devices_info w = None ->
   snd (run (parse_gpuset_args w docker "ALL")) = Ok ∅ /\
   forall arg, arg <> ""%string -> arg <> "ALL"%string ->
     exists msg, snd (run (parse_gpuset_args w docker arg)) = Raise (ValueError msg)).
Proof.
  split; [apply parse_gpuset_args_empty|]. intros Hn.
  assert (Hwf : devices_well_formed w) by (unfold devices_well_formed; by rewrite Hn).
  unfold run. split.
  - rewrite parse_gpuset_args_all by done. simpl. by rewrite discovered_gpus_none.
  - intros arg Hne Hne'. rewrite parse_gpuset_args_explicit by done. simpl.
    destruct (ints _) as [l|] eqn:Ei; [|eauto].
    rewrite bool_decide_eq_false_2; [eauto|]. intros [_ F].
    rewrite discovered_gpus_none in F by done.
    destruct l as [|x l]; [by apply ints_nonempty in Ei|].
    apply Forall_cons in F as [Fx _]. by apply elem_of_nil in Fx.
Qed.

Lemma parse_gpuset_args_no_devices_witness :
  snd (run (parse_gpuset_args (example_host_with true None) 0 "ALL")) = Ok ∅ /\
  exists msg, snd (run (parse_gpuset_args (example_host_with true None) 0 "0"))
                = Raise (ValueError msg).
Proof.
  destruct (parse_gpuset_args_no_devices (example_host_with true None) 0) as [_ H].
  destruct (H eq_refl) as [Ha He]. split; [exact Ha|].
  apply He; discriminate.
Defined.

(** Claim C9: when a non-empty password file is given and its permission
    bits give group or others any access, [main] exits with status 1 right
    after [os.stat]: it neither reads the file nor constructs the client of
    the bundle service.  [main] reads a file only when it is the
    (non-empty) password file and [os.stat] shows those bits all clear. *)
Theorem main_password_file_permissions (w : World) (parse_size : string -> res Z)
    (args : Args) :
  (forall p mode, password_file args = Some p -> p <> ""%string ->
     stat_mode w p = Some mode -> Z.land mode (Z.lor S_IRWXG S_IRWXO) <> 0 ->
     run (main w parse_size args)
       = ([EvLog ("Connecting to " ++ server args); EvStat p;
           EvPrintErr (lax_permissions_msg p)], Raise (SystemExit 1)) /\
     exit_status (snd (run (main w parse_size args))) = 1) /\
  (forall p, EvReadFile p ∈ fst (run (main w parse_size args)) ->
     password_file args = Some p /\ p <> ""%string /\
     exists mode, stat_mode w p = Some mode /\ Z.land mode (Z.lor S_IRWXG S_IRWXO) = 0).
Proof.
  split.
  - intros p mode Hp Hne Hs Hz.
    rewrite (main_lax_password_file w parse_size args p mode Hp Hne Hs Hz). done.
  - intros p Hin.
    destruct (main_read_file_guarded w parse_size args (mkSt [] 0)) as (t & E & F).
    unfold run in Hin. destruct (main w parse_size args (mkSt [] 0)) as [s1 r] eqn:Em.
    simpl in E, Hin. rewrite E in Hin. simpl in Hin.
    rewrite forallb_forall in F. apply list_elem_of_In, F in Hin.
    destruct (password_file args) as [p0|]; [|discriminate].
    destruct (stat_mode w p) as [mode|]; [|discriminate].
    apply andb_true_iff in Hin as [Hin Hz]. apply andb_true_iff in Hin as [Hq Hne].
    apply String.eqb_eq in Hq as ->. apply negb_true_iff, String.eqb_neq in Hne.
    apply Z.eqb_eq in Hz. eauto.
Qed.

Lemma main_password_file_permissions_witness :
  exit_status (snd (run (main example_host example_parse_size
                           (example_args_with (Some "lax.txt"%string) None None)))) = 1 /\
  EvReadFile "secret.txt" ∈ fst (run (main example_host example_parse_size example_args)) /\
  exists mode, stat_mode example_host "secret.txt" = Some mode /\
               Z.land mode (Z.lor S_IRWXG S_IRWXO) = 0.
Proof.
  split.
  - apply (proj1 (main_password_file_permissions example_host example_parse_size
                    (example_args_with (Some "lax.txt"%string) None None))
             "lax.txt"%string 33188 eq_refl ltac:(discriminate) eq_refl
             ltac:(vm_compute; discriminate)).
  - assert (Hin : EvReadFile "secret.txt"
                    ∈ fst (run (main example_host example_parse_size example_args)))
      by (apply (list_elem_of_lookup_2 _ 2); vm_compute; reflexivity).
    split; [exact Hin|].
    apply (proj2 (main_password_file_permissions example_host example_parse_size
                    example_args) "secret.txt"%string Hin).
Defined.



(** Claim C10: with a batch queue configured and [boto3] not importable,
    [create_run_manager] logs the missing dependency and raises
    [SystemExit(1)]; [main] then performs no event of the local Docker back
    end, and once it has called [create_run_manager] it ends in
    [SystemExit(1)], exit status 1. *)
Theorem create_run_manager_no_boto3 (w : World) (parse_size : string -> res Z)
    (args : Args) (q : string) :
  batch_queue args = Some q -> boto3_importable w = false ->
  (forall mib bs wk s, create_run_manager w args mib bs wk s =
     (mkSt (trace s ++ [EvEnter "create_run_manager"; EvImportBoto3;
        EvLog "Missing dependencies, please install boto3 to enable AWS support."])
        (next_ref s), Raise (SystemExit 1))) /\
  (forall e, e ∈ fst (run (main w parse_size args)) -> local_docker_event e = false) /\
  (EvEnter "create_run_manager" ∈ fst (run (main w parse_size args)) ->
     snd (run (main w parse_size args)) = Raise (SystemExit 1) /\
     exit_status (snd (run (main w parse_size args))) = 1).
Proof.
  intros Hq Hb.
  assert (Hc : forall mib bs wk s, create_run_manager w args mib bs wk s =
     (mkSt (trace s ++ [EvEnter "create_run_manager"; EvImportBoto3;
        EvLog "Missing dependencies, please install boto3 to enable AWS support."])
        (next_ref s), Raise (SystemExit 1))).
  { intros mib bs wk s. unfold create_run_manager, import_boto3, bind, emit, ret, raise.
    rewrite Hq. simpl. rewrite Hb. simpl. by rewrite <- !app_assoc. }
  split; [exact Hc|]. split.
  - intros e Hin. apply negb_true_iff.
    exact (ext_run_elem _ _ e (main_batch_local_free w parse_size args q Hq) Hin).
  - rewrite main_parts.
    destruct (main_pre_no_factory w parse_size args (mkSt [] 0)) as (t & E & F).
    destruct (main_pre w parse_size args (mkSt [] 0)) as [s1 [[[bs mw] mib]|e]].
    + rewrite Worker_at, Hc. simpl. done.
    + simpl in E |- *. rewrite E. intros Hin.
      rewrite forallb_forall in F. apply list_elem_of_In, F in Hin. discriminate.
Qed.

Lemma create_run_manager_no_boto3_witness :
  EvEnter "create_run_manager"
    ∈ fst (run (main (example_host_with false (Some example_gpus)) example_parse_size
                  (example_args_with (Some "secret.txt"%string) (Some "q"%string) None))) /\
  snd (run (main (example_host_with false (Some example_gpus)) example_parse_size
              (example_args_with (Some "secret.txt"%string) (Some "q"%string) None)))
    = Raise (SystemExit 1).
Proof.
  destruct (create_run_manager_no_boto3 (example_host_with false (Some example_gpus))
              example_parse_size
              (example_args_with (Some "secret.txt"%string) (Some "q"%string) None) "q"
              eq_refl eq_refl) as (_ & _ & H).
  assert (Hin : EvEnter "create_run_manager"
    ∈ fst (run (main (example_host_with false (Some example_gpus)) example_parse_size
                  (example_args_with (Some "secret.txt"%string) (Some "q"%string) None))))
    by (apply (list_elem_of_lookup_2 _ 6); vm_compute; reflexivity).
  split; [exact Hin|]. apply (H Hin).
Defined.

Lemma filter_none (f : event -> bool) (t : list event) :
  forallb (fun e => negb (f e)) t = true -> List.filter f t = [].
Proof.
  induction t as [|e t IH]; simpl; [done|].
  intros H. apply andb_true_iff in H as [He Ht]. apply negb_true_iff in He.
  rewrite He. by apply IH.
Qed.

(** Claim C2 (with the constructor of [Worker] modelled from the spec): the
    back end is chosen by [args.batch_queue].  Without a batch queue,
    [create_run_manager] builds the Docker run manager from the results of
    [parse_cpuset_args] and [parse_gpuset_args]; with a batch queue it
    performs no event of the local back end (no parsing of the CPU and GPU
    sets, no Docker object) and builds the AWS Batch run manager.  A run of
    [main] calls [create_run_manager] at most once, and exactly once when it
    reaches the main loop. *)
Theorem backend_selected_once (w : World) (parse_size : string -> res Z) (args : Args) :
  (batch_queue args = None ->
   forall mib bs wk s s' rm, create_run_manager w args mib bs wk s = (s', Ok rm) ->
   exists t docker im cs gs,
     snd (run (parse_cpuset_args w (cpuset args))) = Ok cs /\
     snd (run (parse_gpuset_args w docker (gpuset args))) = Ok gs /\
     trace s' = t ++ [EvNewDockerRunManager rm docker bs im wk (network_prefix args) cs gs]) /\
  (forall q, batch_queue args = Some q ->
   (forall mib bs wk,
      ext (fun e => negb (local_docker_event e)) (create_run_manager w args mib bs wk)) /\
   (forall mib bs wk s s' rm, create_run_manager w args mib bs wk s = (s', Ok rm) ->
      exists t batch_client, trace s' = t ++ [EvNewAwsBatchRunManager rm batch_client q bs wk])) /\
  (length (List.filter enters_create_run_manager (fst (run (main w parse_size args)))) <= 1)%nat /\
  (snd (run (main w parse_size args)) = Ok tt ->
   length (List.filter enters_create_run_manager (fst (run (main w parse_size args)))) = 1%nat).
Proof.
  split; [|split; [|split]].
  - intros Hq mib bs wk s s' rm. unfold create_run_manager, bind, emit, new, ret.
    rewrite Hq. simpl. rewrite parse_cpuset_args_at.
    destruct (snd (run (parse_cpuset_args w (cpuset args)))) as [cs|e] eqn:Ec;
      [|discriminate]. simpl. rewrite parse_gpuset_args_at.
    destruct (snd (run (parse_gpuset_args w _ (gpuset args)))) as [gs|e] eqn:Eg;
      [|discriminate]. simpl. intros [= <- <-]. simpl.
    eexists. exists (next_ref s). do 3 eexists.
    split; [first [exact Ec|reflexivity]|]. split; [first [exact Eg|reflexivity]|]. reflexivity.
  - intros q Hq. split.
    + intros mib bs wk. by apply (create_run_manager_batch_local_free w args q).
    + intros mib bs wk s s' rm. unfold create_run_manager, import_boto3, bind, emit, new, ret.
      rewrite Hq. simpl. destruct (boto3_importable w); simpl; [|discriminate].
      intros [= <- <-]. simpl. eauto.
  - rewrite main_parts.
    destruct (main_pre_no_factory w parse_size args (mkSt [] 0)) as (t & E & F).
    destruct (main_pre w parse_size args (mkSt [] 0)) as [s1 [[[bs mw] mib]|e]];
      simpl in E.
    2: { simpl. rewrite E. simpl. rewrite filter_none by done. simpl. lia. }
    rewrite Worker_at.
    match goal with |- context [create_run_manager w args mib bs ?wk ?s] =>
      destruct (create_run_manager_enters_once w args mib bs wk s) as (t2 & E2 & F2);
      destruct (create_run_manager w args mib bs wk s) as [s2 [rm|e]] end;
      simpl in E2 |- *; rewrite ?E2, E;
      rewrite !List.filter_app, (filter_none _ t) by done; simpl;
      rewrite ?List.filter_app, (filter_none _ t2) by done; simpl; lia.
  - rewrite main_parts.
    destruct (main_pre_no_factory w parse_size args (mkSt [] 0)) as (t & E & F).
    destruct (main_pre w parse_size args (mkSt [] 0)) as [s1 [[[bs mw] mib]|e]];
      [|discriminate].
    rewrite Worker_at.
    match goal with |- context [create_run_manager w args mib bs ?wk ?s] =>
      destruct (create_run_manager_enters_once w args mib bs wk s) as (t2 & E2 & F2);
      destruct (create_run_manager w args mib bs wk s) as [s2 [rm|e]] end;
      [|discriminate].
    simpl in E, E2 |- *. intros _. rewrite E2, E.
    rewrite !List.filter_app, (filter_none _ t) by done. simpl.
    rewrite ?List.filter_app, (filter_none _ t2) by done. reflexivity.
Qed.

Lemma backend_selected_once_witness :
  snd (run (main example_host example_parse_size example_args)) = Ok tt /\
  length (List.filter enters_create_run_manager
            (fst (run (main example_host example_parse_size example_args)))) = 1%nat.
Proof.
  assert (Hok : snd (run (main example_host example_parse_size example_args)) = Ok tt)
    by (vm_compute; reflexivity).
  split; [exact Hok|].
  apply (proj2 (proj2 (proj2 (backend_selected_once example_host example_parse_size
                                 example_args))) Hok).
Defined.

(** Claim C5 (with the image cache modelled from the spec): without
    [--max-image-cache-size], every [DockerImageManager] that [main] builds
    gets the bound [None], and with the bound [None] the cache evicts
    nothing; with [--max-image-cache-size sz], it gets [parse_size(sz)]. *)
Theorem image_cache_bound (w : World) (parse_size : string -> res Z) (args : Args) :
  (max_image_cache_size args = None ->
     (forall r docker wd b,
        EvNewDockerImageManager r docker wd b ∈ fst (run (main w parse_size args)) -> b = None) /\
     (forall c, ImageCache.evict_if_over_budget None c = c)) /\
  (forall sz bytes, max_image_cache_size args = Some sz -> parse_size sz = Ok bytes ->
     forall r docker wd b,
       EvNewDockerImageManager r docker wd b ∈ fst (run (main w parse_size args)) ->
       b = Some bytes).
Proof.
  split.
  - intros Hn. split; [|done]. intros r docker wd b Hin.
    assert (H := main_image_manager_bound w parse_size args None).
    rewrite Hn in H. specialize (H (fun s => eq_refl)).
    apply (ext_run_elem _ _ _ H) in Hin. by apply bool_decide_eq_true in Hin.
  - intros sz bytes Hs Hb r docker wd b Hin.
    assert (H := main_image_manager_bound w parse_size args (Some bytes)).
    rewrite Hs, Hb in H. specialize (H (fun s => eq_refl)).
    apply (ext_run_elem _ _ _ H) in Hin. by apply bool_decide_eq_true in Hin.
Qed.

Lemma image_cache_bound_witness :
  EvNewDockerImageManager 3 2 "codalab-worker-scratch" (Some (2 ^ 30))
    ∈ fst (run (main example_host example_parse_size example_args)) /\
  Some (2 ^ 30) = Some (2 ^ 30) /\
  EvNewDockerImageManager 3 2 "codalab-worker-scratch" None
    ∈ fst (run (main example_host example_parse_size
                  (example_args_with (Some "secret.txt"%string) None None))) /\
  (None : option Z) = None.
Proof.
  assert (H1 : EvNewDockerImageManager 3 2 "codalab-worker-scratch" (Some (2 ^ 30))
                 ∈ fst (run (main example_host example_parse_size example_args)))
    by (apply (list_elem_of_lookup_2 _ 9); vm_compute; reflexivity).
  assert (H2 : EvNewDockerImageManager 3 2 "codalab-worker-scratch" None
                 ∈ fst (run (main example_host example_parse_size
                               (example_args_with (Some "secret.txt"%string) None None))))
    by (apply (list_elem_of_lookup_2 _ 9); vm_compute; reflexivity).
  split; [exact H1|]. split.
  - exact (proj2 (image_cache_bound example_host example_parse_size example_args)
             "1g"%string (2 ^ 30) eq_refl eq_refl _ _ _ _ H1).
  - split; [exact H2|].
    exact (proj1 (proj1 (image_cache_bound example_host example_parse_size
             (example_args_with (Some "secret.txt"%string) None None)) eq_refl) _ _ _ _ H2).
Defined.

(** Claim C3 (with the resource partitioner modelled from the spec): from
    the initial pool, a sequence of reservations whose CPU and GPU counts sum
    to at most the sizes of the pools all succeed with sets of the requested
    sizes that are pairwise disjoint; and for each set handed out, releasing
    it and then reserving as many CPUs and GPUs again succeeds. *)
Theorem partitioner_no_overlap_no_leak (cpu_ids gpu_ids : gset Z) (reqs : list (nat * nat)) :
  (sum_list (map fst reqs) <= size cpu_ids)%nat ->
  (sum_list (map snd reqs) <= size gpu_ids)%nat ->
  exists sets rp,
    Partitioner.reserve_all reqs (Partitioner.initial cpu_ids gpu_ids) = Some (sets, rp) /\
    Forall2 (fun req rs => size (Partitioner.rs_cpus rs) = fst req /\
                           size (Partitioner.rs_gpus rs) = snd req) reqs sets /\
    Partitioner.pairwise_disjoint sets /\
    Forall (fun rs => exists rp', Partitioner.release_resources rs rp = Some rp' /\
              exists rs' rp'', Partitioner.reserve_resources (size (Partitioner.rs_cpus rs))
                                 (size (Partitioner.rs_gpus rs)) rp' = Some (rs', rp'')) sets.
Proof.
  intros Hc Hg.
  destruct (PartitionerFacts.reserve_all_spec reqs (Partitioner.initial cpu_ids gpu_ids))
    as (sets & rp & E & V & _ & _ & Hs & Hf & Hp).
  - split; unfold Partitioner.valid_pool; simpl; set_solver.
  - change (size (∅ : gset Z) + sum_list (map fst reqs) <= size cpu_ids)%nat.
    rewrite size_empty. lia.
  - change (size (∅ : gset Z) + sum_list (map snd reqs) <= size gpu_ids)%nat.
    rewrite size_empty. lia.
  - exists sets, rp. split; [done|]. split; [done|]. split; [done|].
    eapply Forall_impl; [exact Hf|]. intros rs (Sc & Sg & _).
    by apply PartitionerFacts.release_then_reserve.
Qed.

Lemma partitioner_no_overlap_no_leak_witness :
  exists sets rp,
    Partitioner.reserve_all [(2, 1); (2, 1)]%nat
      (Partitioner.initial (list_to_set [0; 1; 2; 3]) (list_to_set [0; 1])) = Some (sets, rp) /\
    Partitioner.pairwise_disjoint sets.
Proof.
  destruct (partitioner_no_overlap_no_leak (list_to_set [0; 1; 2; 3]) (list_to_set [0; 1])
              [(2, 1); (2, 1)]%nat ltac:(apply Nat.leb_le; vm_compute; reflexivity)
              ltac:(apply Nat.leb_le; vm_compute; reflexivity))
    as (sets & rp & E & _ & D & _).
  eauto.
Defined.

End Claims.

Module ExtraFacts.
Import PyFacts ParseFacts.

Lemma ints_length (xs : list string) (l : list Z) :
  ints xs = Some l -> length l = length xs.
Proof.
  revert l. induction xs as [|x xs IH]; intros l H; simpl in H.
  - by injection H as <-.
  - destruct (Py.int_ x), (ints xs) as [l'|] eqn:E; try discriminate.
    injection H as <-. simpl. f_equal. by apply IH.
Qed.

Lemma ints_none (xs : list string) (x : string) :
  In x xs -> Py.int_ x = None -> ints xs = None.
Proof.
  induction xs as [|y xs IH]; intros Hin Hx; [done|]. simpl.
  destruct Hin as [<-|Hin].
  - by rewrite Hx.
  - rewrite (IH Hin Hx). by destruct (Py.int_ y).
Qed.

Lemma skip_ws_blank (l : list ascii) :
  forallb Py.is_space l = true -> Py.skip_ws l = [].
Proof.
  induction l as [|c l IH]; simpl; [done|].
  intros H. apply andb_prop in H as [-> H]. by apply IH.
Qed.

(** [int(s)] raises on a string of blanks, the empty string included. *)
Lemma int_blank (t : string) :
  forallb Py.is_space (list_ascii_of_string t) = true -> Py.int_ t = None.
Proof. intros H. unfold Py.int_. rewrite skip_ws_blank by done. reflexivity. Qed.

Section S.
Variable w : World.

(** A successful [parse_gpuset_args] of a non-empty argument has seen only
    paths of the form [/dev/nvidiaN]. *)
Lemma parse_gpuset_args_ok_well_formed (docker : nat) (arg : string) (S : gset Z) :
  arg <> ""%string -> snd (run (parse_gpuset_args w docker arg)) = Ok S ->
  devices_well_formed w.
Proof.
  intros Hne H. unfold devices_well_formed.
  destruct (nvidia_devices_info w) as [info|] eqn:Ei; [|done].
  destruct (decide (Forall (fun d => is_Some (Py.nvidia_device_re (Path d))) (Devices info)))
    as [|Hn]; [done|].
  exfalso. apply not_Forall_Exists in Hn; [|apply _].
  apply Exists_exists in Hn as (d & Hd & Hnd).
  assert (Hp : ~ (exists ds, nvidia_path (Path d) ds)).
  { intros [ds Hp]. apply nvidia_device_re_spec in Hp. apply Hnd. rewrite Hp. by eexists. }
  rewrite (parse_gpuset_args_bad_path w docker arg info d Hne Ei Hd Hp) in H. discriminate.
Qed.

End S.

Import StartupFacts.

Lemma forallb_elem (P : event -> bool) (t : list event) (e : event) :
  forallb P t = true -> e ∈ t -> P e = true.
Proof. rewrite forallb_forall. intros F H. by apply F, list_elem_of_In. Qed.

Lemma ext_bind_known P {A B} (m : M A) (a : A) (k : A -> M B) :
  (forall s, exists t, m s = (mkSt (trace s ++ t) (next_ref s), Ok a) /\ forallb P t = true) ->
  ext P (k a) -> ext P (bind m k).
Proof.
  intros Hm Hk s. unfold bind. destruct (Hm s) as (t & -> & F).
  destruct (Hk (mkSt (trace s ++ t) (next_ref s))) as (t2 & E2 & F2).
  exists (t ++ t2). simpl in E2. rewrite E2, <- app_assoc, forallb_app, F, F2. done.
Qed.

Lemma ext_bind_lift_raise P {A B} (e : exn) (k : A -> M B) :
  ext P (bind (lift_res (Raise e)) k).
Proof. intros s. exists []. simpl. by rewrite app_nil_r. Qed.

Lemma ext_bind_bind_lift_raise P {A B C} (e : exn) (k : A -> M B) (k' : B -> M C) :
  ext P (bind (bind (lift_res (Raise e)) k) k').
Proof. intros s. exists []. simpl. by rewrite app_nil_r. Qed.

Lemma credentials_from_env_at (w : World) (s : St) :
  credentials_from_env w s =
    (mkSt (trace s ++ [EvGetEnv "CODALAB_USERNAME"] ++
           match environ w "CODALAB_USERNAME" with
           | Some _ => [] | None => [EvRawInput "Username: "] end ++
           [EvGetEnv "CODALAB_PASSWORD"] ++
           match environ w "CODALAB_PASSWORD" with
           | Some _ => [] | None => [EvGetpass] end) (next_ref s),
     Ok (default (stdin_line w) (environ w "CODALAB_USERNAME"),
         default (getpass_line w) (environ w "CODALAB_PASSWORD"))).
Proof.
  unfold credentials_from_env, getenv, bind, emit, ret. simpl.
  destruct (environ w "CODALAB_USERNAME"), (environ w "CODALAB_PASSWORD");
    simpl; by repeat rewrite <- app_assoc.
Qed.

Lemma readline_aux_line (l r : list ascii) :
  ~ In "010"%char l -> Py.readline_aux (l ++ "010"%char :: r) = (l ++ ["010"%char], r).
Proof.
  induction l as [|c l IH]; intros Hn; simpl; [reflexivity|].
  destruct (Ascii.eqb c "010") eqn:E.
  - apply Ascii.eqb_eq in E as ->. exfalso. apply Hn. by left.
  - rewrite IH; [done|]. intros H. apply Hn. by right.
Qed.

(** [f.readline()] returns the text up to and including the first newline. *)
Lemma readline_line (u r : string) :
  ~ In "010"%char (list_ascii_of_string u) ->
  Py.readline (u ++ String "010"%char r) = (u ++ String "010"%char EmptyString, r)%string.
Proof.
  intros Hu. unfold Py.readline. rewrite list_ascii_of_string_app.
  cbn [list_ascii_of_string]. rewrite readline_aux_line by done.
  rewrite string_of_list_ascii_of_string. f_equal.
  apply list_ascii_of_string_inj.
  rewrite list_ascii_of_string_of_list_ascii, list_ascii_of_string_app. reflexivity.
Qed.

(** At the end of the file [f.readline()] returns what is left. *)
Lemma readline_last (u : string) :
  ~ In "010"%char (list_ascii_of_string u) -> Py.readline u = (u, EmptyString).
Proof.
  intros Hu. unfold Py.readline.
  assert (E : Py.readline_aux (list_ascii_of_string u) = (list_ascii_of_string u, [])).
  { induction (list_ascii_of_string u) as [|c l IH]; simpl; [reflexivity|].
    destruct (Ascii.eqb c "010") eqn:Ec.
    - apply Ascii.eqb_eq in Ec as ->. exfalso. apply Hu. by left.
    - rewrite IH; [done|]. intros H. apply Hu. by right. }
  rewrite E. simpl. by rewrite string_of_list_ascii_of_string.
Qed.

Lemma skip_ws_snoc_space (l : list ascii) (c : ascii) :
  Py.is_space c = true ->
  Py.skip_ws (l ++ [c]) = Py.skip_ws l ++ [c] \/
  (Py.skip_ws (l ++ [c]) = [] /\ Py.skip_ws l = []).
Proof.
  intros Hc. induction l as [|x l IH]; simpl.
  - rewrite Hc. by right.
  - destruct (Py.is_space x); [exact IH|by left].
Qed.

(** [s.strip()] ignores a final newline. *)
Lemma strip_app_newline (s : string) :
  Py.strip (s ++ String "010"%char EmptyString) = Py.strip s.
Proof.
  unfold Py.strip. rewrite list_ascii_of_string_app. cbn [list_ascii_of_string].
  destruct (skip_ws_snoc_space (list_ascii_of_string s) "010"%char eq_refl) as [E|[E1 E2]].
  - rewrite E, rev_app_distr. reflexivity.
  - by rewrite E1, E2.
Qed.

Lemma credentials_from_file_at (w : World) (path u p rest : string) (mode : Z) (s : St) :
  stat_mode w path = Some mode -> Z.land mode (Z.lor S_IRWXG S_IRWXO) = 0 ->
  file_contents w path = Some (u ++ String "010"%char (p ++ String "010"%char rest))%string ->
  ~ In "010"%char (list_ascii_of_string u) -> ~ In "010"%char (list_ascii_of_string p) ->
  credentials_from_file w path s =
    (mkSt (trace s ++ [EvStat path; EvReadFile path]) (next_ref s),
     Ok (Py.strip u, Py.strip p)).
Proof.
  intros Hs Hz Hc Hu Hp.
  unfold credentials_from_file, os_stat_mode, read_credentials_file, bind, emit, ret.
  cbn [trace next_ref]. rewrite Hs, Hz. cbn -[Py.readline Py.strip]. rewrite Hc.
  rewrite !readline_line by done. cbn -[Py.strip].
  rewrite !strip_app_newline, <- app_assoc. reflexivity.
Qed.

Lemma credentials_from_file_one_line (w : World) (path u : string) (mode : Z) (s : St) :
  stat_mode w path = Some mode -> Z.land mode (Z.lor S_IRWXG S_IRWXO) = 0 ->
  file_contents w path = Some u -> ~ In "010"%char (list_ascii_of_string u) ->
  credentials_from_file w path s =
    (mkSt (trace s ++ [EvStat path; EvReadFile path]) (next_ref s),
     Ok (Py.strip u, EmptyString)).
Proof.
  intros Hs Hz Hc Hu.
  unfold credentials_from_file, os_stat_mode, read_credentials_file, bind, emit, ret.
  cbn [trace next_ref]. rewrite Hs, Hz. cbn -[Py.readline Py.strip]. rewrite Hc.
  rewrite readline_last by done. cbn -[Py.strip].
  rewrite <- app_assoc. reflexivity.
Qed.

Lemma space_not_digit (c : ascii) : Py.is_space c = true -> Py.is_digit c = false.
Proof.
  unfold Py.is_space, Py.is_digit. intros H.
  apply orb_prop in H as [H|H];
    [apply Nat.eqb_eq in H | apply andb_prop in H as [H1 H2]; apply Nat.leb_le in H1, H2];
    apply andb_false_iff; left; apply Nat.leb_gt; lia.
Qed.

Lemma skip_ws_app_blank (l1 l : list ascii) :
  forallb Py.is_space l1 = true -> Py.skip_ws (l1 ++ l) = Py.skip_ws l.
Proof.
  induction l1 as [|c l1 IH]; simpl; [done|].
  intros H. apply andb_prop in H as [-> H]. by apply IH.
Qed.

Lemma int_padded (b1 b2 : string) (ds : list ascii) :
  forallb Py.is_space (list_ascii_of_string b1) = true -> ds <> [] ->
  Forall (fun c => Py.is_digit c = true) ds ->
  forallb Py.is_space (list_ascii_of_string b2) = true ->
  Py.int_ (b1 ++ string_of_list_ascii ds ++ b2) = Some (Py.digits_value ds).
Proof.
  intros H1 Hne Fd H2. unfold Py.int_.
  rewrite !list_ascii_of_string_app, list_ascii_of_string_of_list_ascii, skip_ws_app_blank by done.
  set (l2 := list_ascii_of_string b2) in *.
  destruct ds as [|c r]; [congruence|].
  pose proof (Forall_inv Fd) as Hc. simpl in Hc.
  assert (Hs : Py.skip_ws ((c :: r) ++ l2) = (c :: r) ++ l2).
  { simpl. destruct (digit_cases c Hc) as [->|[->|[->|[->|[->|[->|[->|[->|[->| ->]]]]]]]]];
      reflexivity. }
  rewrite Hs.
  assert (Hsign : match (c :: r) ++ l2 with
                  | "-"%char :: r0 => (true, r0)
                  | "+"%char :: r0 => (false, r0)
                  | _ => (false, (c :: r) ++ l2)
                  end = (false, (c :: r) ++ l2)).
  { destruct (digit_cases c Hc) as [->|[->|[->|[->|[->|[->|[->|[->|[->| ->]]]]]]]]];
      reflexivity. }
  rewrite Hsign. cbv beta iota. rewrite Hs.
  rewrite span_digits_app; [|done|].
  2: { intros c' r' E. apply space_not_digit. unfold l2 in *.
       destruct (list_ascii_of_string b2); [discriminate|]. injection E as -> ->.
       simpl in H2. by apply andb_prop in H2 as [? _]. }
  rewrite H2. reflexivity.
Qed.

Lemma split_aux_nosep (sep : ascii) (l cur : list ascii) :
  ~ In sep l -> Py.split_aux sep l cur = [string_of_list_ascii (rev cur ++ l)].
Proof.
  revert cur. induction l as [|c l IH]; intros cur Hn; simpl.
  - by rewrite app_nil_r.
  - destruct (Ascii.eqb c sep) eqn:E.
    + apply Ascii.eqb_eq in E as ->. exfalso. apply Hn. by left.
    + rewrite IH by (intros H; apply Hn; by right). simpl. by rewrite <- app_assoc.
Qed.

Lemma split_aux_sep (sep : ascii) (l r cur : list ascii) :
  ~ In sep l ->
  Py.split_aux sep (l ++ sep :: r) cur = string_of_list_ascii (rev cur ++ l) :: Py.split_aux sep r [].
Proof.
  revert cur. induction l as [|c l IH]; intros cur Hn; simpl.
  - rewrite Ascii.eqb_refl. by rewrite app_nil_r.
  - destruct (Ascii.eqb c sep) eqn:E.
    + apply Ascii.eqb_eq in E as ->. exfalso. apply Hn. by left.
    + rewrite IH by (intros H; apply Hn; by right). simpl. by rewrite <- app_assoc.
Qed.

(** [sep.join(items).split(sep)] gives back the items when none holds [sep]. *)
Lemma split_concat (items : list string) :
  items <> [] -> Forall (fun x => ~ In ","%char (list_ascii_of_string x)) items ->
  Py.split "," (String.concat "," items) = items.
Proof.
  intros Hne F. unfold Py.split. induction F as [|x xs Hx F IH]; [done|].
  destruct xs as [|y xs].
  - simpl. rewrite split_aux_nosep by done. simpl. by rewrite string_of_list_ascii_of_string.
  - change (String.concat "," (x :: y :: xs)) with (x ++ "," ++ String.concat "," (y :: xs))%string.
    rewrite !list_ascii_of_string_app. cbn [list_ascii_of_string app].
    rewrite split_aux_sep by done. f_equal; [apply string_of_list_ascii_of_string|].
    by apply IH.
Qed.

Lemma ints_map {A} (f : A -> string) (g : A -> Z) (l : list A) :
  Forall (fun a => Py.int_ (f a) = Some (g a)) l -> ints (map f l) = Some (map g l).
Proof. induction 1 as [|a l Ha F IH]; simpl; [done|]. by rewrite Ha, IH. Qed.

Lemma digit_val_range (c : ascii) :
  Py.is_digit c = true -> 0 <= Py.digit_val c <= 9.
Proof.
  unfold Py.is_digit, Py.digit_val. intros H. apply andb_prop in H as [H1 H2].
  apply Nat.leb_le in H1, H2. lia.
Qed.

Lemma digits_value_nonneg (ds : list ascii) :
  Forall (fun c => Py.is_digit c = true) ds -> 0 <= Py.digits_value ds.
Proof.
  unfold Py.digits_value. intros F.
  assert (G : forall acc, 0 <= acc ->
            0 <= fold_left (fun acc c => 10 * acc + Py.digit_val c) ds acc).
  { induction F as [|c ds Hc F IH]; intros acc Ha; simpl; [done|].
    apply IH. pose proof (digit_val_range c Hc). lia. }
  apply G. lia.
Qed.

Section Wiring.
Variable w : World.
Variable parse_size : string -> res Z.

Lemma main_pre_ok (args : Args) (s s' : St) (bs : nat) (mw : Z) (mib : option Z) :
  main_pre w parse_size args s = (s', Ok (bs, mw, mib)) ->
  parse_size (max_work_dir_size args) = Ok mw /\
  exists u p, EvNewBundleServiceClient bs (server args) u p ∈ trace s'.
Proof.
  unfold main_pre, bind, emit, new, ret, lift_res. cbn [trace next_ref].
  destruct (match truthy_path (password_file args) with
            | Some path => credentials_from_file w path
            | None => credentials_from_env w
            end _) as [s1 [[u p]|e]]; [|discriminate].
  destruct (parse_size (max_work_dir_size args)) as [m|e]; [|discriminate].
  destruct (max_image_cache_size args) as [sz|];
    [destruct (parse_size sz) as [b|e]; [|discriminate]|];
    intros H; injection H as <- <- <- <-; (split; [done|]); exists u, p;
    apply elem_of_app; right; by apply list_elem_of_singleton.
Qed.

Lemma main_pre_no_worker (args : Args) :
  ext (fun e => negb (constructs_worker e)) (main_pre w parse_size args).
Proof.
  unfold main_pre, credentials_from_file, credentials_from_env, os_stat_mode,
    read_credentials_file, getenv.
  ext_tac; reflexivity.
Qed.

Lemma create_run_manager_no_worker (args : Args) (mib : option Z) (bs wk : nat) :
  ext (fun e => negb (constructs_worker e)) (create_run_manager w args mib bs wk).
Proof.
  unfold create_run_manager, parse_cpuset_args, parse_gpuset_args, import_boto3,
    multiprocessing_cpu_count, get_nvidia_devices_info.
  ext_tac; reflexivity.
Qed.

End Wiring.

End ExtraFacts.

Module Extras.
Import PyFacts ParseFacts StartupFacts ExtraFacts.

(** Every set that [parse_cpuset_args] returns holds CPU identifiers in
    [0, cpu_count), and for an explicit list it has one element per
    comma-separated item. *)
Theorem parse_cpuset_args_result (w : World) (arg : string) (S : gset Z) :
  snd (run (parse_cpuset_args w arg)) = Ok S ->
  (forall n, n ∈ S -> 0 <= n < cpu_count w) /\
  (arg <> "ALL"%string -> size S = length (Py.split "," arg)).
Proof.
  intros H. destruct (String.eqb arg "ALL") eqn:Ea.
  - apply String.eqb_eq in Ea as ->. unfold run in H. rewrite parse_cpuset_args_all in H.
    simpl in H. injection H as <-. split; [|done].
    intros n Hn. apply elem_of_list_to_set, elem_of_seqZ in Hn. lia.
  - apply String.eqb_neq in Ea. unfold run in H.
    rewrite parse_cpuset_args_explicit in H by done. simpl in H.
    destruct (ints _) as [l|] eqn:Ei; [|discriminate].
    case_bool_decide as Hb; [|discriminate]. injection H as <-. destruct Hb as [Nd F].
    split.
    + intros n Hn. apply elem_of_list_to_set in Hn. rewrite Forall_forall in F. by apply F.
    + intros _. rewrite size_list_to_set by done. by apply ints_length.
Qed.

Lemma parse_cpuset_args_result_witness :
  snd (run (parse_cpuset_args example_host "0,2")) = Ok (list_to_set [0; 2]) /\
  (forall n, n ∈ (list_to_set [0; 2] : gset Z) -> 0 <= n < cpu_count example_host) /\
  ("0,2"%string <> "ALL"%string -> size (list_to_set [0; 2] : gset Z) = length (Py.split "," "0,2")).
Proof.
  assert (H : snd (run (parse_cpuset_args example_host "0,2")) = Ok (list_to_set [0; 2]))
    by reflexivity.
  split; [exact H|]. exact (parse_cpuset_args_result example_host "0,2" _ H).
Defined.

(** Every set that [parse_gpuset_args] returns holds only numbers of GPUs
    that the device enumeration reported, and for an explicit list it has
    one element per comma-separated item.  Nothing needs to be assumed of
    the reported paths: with a path that is not [/dev/nvidiaN] the
    function raises. *)
Theorem parse_gpuset_args_result (w : World) (docker : nat) (arg : string) (S : gset Z) :
  snd (run (parse_gpuset_args w docker arg)) = Ok S ->
  (forall n, n ∈ S -> n ∈ discovered_gpus w) /\
  (arg <> ""%string -> arg <> "ALL"%string -> size S = length (Py.split "," arg)).
Proof.
  intros H. destruct (String.eqb arg "") eqn:E0.
  - apply String.eqb_eq in E0 as ->. injection H as <-.
    split; [intros n Hn; by apply elem_of_empty in Hn|done].
  - apply String.eqb_neq in E0.
    pose proof (parse_gpuset_args_ok_well_formed w docker arg S E0 H) as Hwf.
    destruct (String.eqb arg "ALL") eqn:Ea.
    + apply String.eqb_eq in Ea as ->. unfold run in H.
      rewrite parse_gpuset_args_all in H by done. simpl in H. injection H as <-.
      split; [|done]. intros n Hn. by apply elem_of_list_to_set in Hn.
    + apply String.eqb_neq in Ea. unfold run in H.
      rewrite parse_gpuset_args_explicit in H by done. simpl in H.
      destruct (ints _) as [l|] eqn:Ei; [|discriminate].
      case_bool_decide as Hb; [|discriminate]. injection H as <-. destruct Hb as [Nd F].
      split.
      * intros n Hn. apply elem_of_list_to_set in Hn. rewrite Forall_forall in F. by apply F.
      * intros _ _. rewrite size_list_to_set by done. by apply ints_length.
Qed.

Lemma parse_gpuset_args_result_witness :
  snd (run (parse_gpuset_args example_host 0 "1")) = Ok (list_to_set [1]) /\
  (forall n, n ∈ (list_to_set [1] : gset Z) -> n ∈ discovered_gpus example_host) /\
  ("1"%string <> ""%string -> "1"%string <> "ALL"%string ->
   size (list_to_set [1] : gset Z) = length (Py.split "," "1")).
Proof.
  assert (H : snd (run (parse_gpuset_args example_host 0 "1")) = Ok (list_to_set [1]))
    by reflexivity.
  split; [exact H|]. exact (parse_gpuset_args_result example_host 0 "1" _ H).
Defined.

(** The error that the parsers raise for an explicit list (for GPUs: a
    non-empty list, on a host whose device paths are all [/dev/nvidiaN]):
    the format error when some item is not an integer; otherwise the
    "not distinct" error when an identifier repeats, whatever the range;
    otherwise the "out of range" error when an identifier is not a CPU of
    the host (not a reported GPU). *)
Theorem parse_sets_error_precedence (w : World) (docker : nat) (arg : string) :
  arg <> "ALL"%string ->
  (ints (Py.split "," arg) = None ->
   snd (run (parse_cpuset_args w arg)) = Raise (ValueError
     "CPUSET_STR invalid format: must be a string of comma-separated integers")) /\
  (forall l, ints (Py.split "," arg) = Some l -> ~ NoDup l ->
   snd (run (parse_cpuset_args w arg)) = Raise (ValueError
     "CPUSET_STR invalid: CPUs not distinct values")) /\
  (forall l, ints (Py.split "," arg) = Some l -> NoDup l ->
   ~ Forall (fun x => 0 <= x < cpu_count w) l ->
   snd (run (parse_cpuset_args w arg)) = Raise (ValueError
     "CPUSET_STR invalid: CPUs out of range")) /\
  (arg <> ""%string -> devices_well_formed w ->
   (ints (Py.split "," arg) = None ->
    snd (run (parse_gpuset_args w docker arg)) = Raise (ValueError
      "GPUSET_STR invalid format: must be a string of comma-separated integers")) /\
   (forall l, ints (Py.split "," arg) = Some l -> ~ NoDup l ->
    snd (run (parse_gpuset_args w docker arg)) = Raise (ValueError
      "GPUSET_STR invalid: GPUs not distinct values")) /\
   (forall l, ints (Py.split "," arg) = Some l -> NoDup l ->
    ~ Forall (fun x => x ∈ discovered_gpus w) l ->
    snd (run (parse_gpuset_args w docker arg)) = Raise (ValueError
      "GPUSET_STR invalid: GPUs out of range"))).
Proof.
  intros Ha. unfold run. rewrite parse_cpuset_args_explicit by done. simpl.
  split; [by intros ->|]. split.
  { intros l -> Hnd. rewrite bool_decide_eq_false_2 by tauto.
    destruct (distinct l) eqn:Ed; [|done]. by apply distinct_NoDup in Ed. }
  split.
  { intros l -> Hnd Hr. rewrite bool_decide_eq_false_2 by tauto.
    by rewrite (proj2 (distinct_NoDup l) Hnd). }
  intros He Hwf. rewrite parse_gpuset_args_explicit by done. simpl.
  split; [by intros ->|]. split.
  - intros l -> Hnd. rewrite bool_decide_eq_false_2 by tauto.
    destruct (distinct l) eqn:Ed; [|done]. by apply distinct_NoDup in Ed.
  - intros l -> Hnd Hr. rewrite bool_decide_eq_false_2 by tauto.
    by rewrite (proj2 (distinct_NoDup l) Hnd).
Qed.

Lemma parse_sets_error_precedence_witness :
  snd (run (parse_cpuset_args example_host "7,7")) = Raise (ValueError
    "CPUSET_STR invalid: CPUs not distinct values") /\
  snd (run (parse_gpuset_args example_host 0 "1,5")) = Raise (ValueError
    "GPUSET_STR invalid: GPUs out of range").
Proof.
  assert (Hwf : devices_well_formed example_host).
  { unfold devices_well_formed. simpl. constructor; [by eexists|]. constructor; [by eexists|].
    constructor. }
  destruct (parse_sets_error_precedence example_host 0 "7,7" ltac:(discriminate))
    as (_ & Hc & _).
  destruct (parse_sets_error_precedence example_host 0 "1,5" ltac:(discriminate))
    as (_ & _ & _ & Hg).
  split.
  - apply (Hc [7; 7]); [reflexivity|]. intros Hnd. apply NoDup_cons in Hnd as [Hn _].
    apply Hn. constructor.
  - destruct (Hg ltac:(discriminate) Hwf) as (_ & _ & Hr).
    apply (Hr [1; 5]); [reflexivity| |]; apply (bool_decide_unpack _); vm_compute; exact I.
Defined.

(** An explicit list with an empty or blank item (a leading, trailing or
    doubled comma, as in [1,] or [0,,1]) is rejected with the format
    error: [int] raises on a blank string.  For GPUs this holds for a
    non-empty argument on a host whose device paths are [/dev/nvidiaN]. *)
Theorem parse_sets_blank_item (w : World) (docker : nat) (arg item : string) :
  arg <> "ALL"%string -> In item (Py.split "," arg) ->
  forallb Py.is_space (list_ascii_of_string item) = true ->
  snd (run (parse_cpuset_args w arg)) = Raise (ValueError
    "CPUSET_STR invalid format: must be a string of comma-separated integers") /\
  (arg <> ""%string -> devices_well_formed w ->
   snd (run (parse_gpuset_args w docker arg)) = Raise (ValueError
     "GPUSET_STR invalid format: must be a string of comma-separated integers")).
Proof.
  intros Ha Hin Hb.
  assert (Hi : ints (Py.split "," arg) = None).
  { apply (ints_none _ item Hin). by apply int_blank. }
  unfold run. rewrite parse_cpuset_args_explicit by done. rewrite Hi. split; [done|].
  intros He Hwf. rewrite parse_gpuset_args_explicit by done. by rewrite Hi.
Qed.

Lemma parse_sets_blank_item_witness :
  snd (run (parse_cpuset_args example_host "1,")) = Raise (ValueError
    "CPUSET_STR invalid format: must be a string of comma-separated integers") /\
  snd (run (parse_gpuset_args example_host 0 "0,,1")) = Raise (ValueError
    "GPUSET_STR invalid format: must be a string of comma-separated integers").
Proof.
  assert (Hwf : devices_well_formed example_host).
  { unfold devices_well_formed. simpl. constructor; [by eexists|]. constructor; [by eexists|].
    constructor. }
  split.
  - apply (parse_sets_blank_item example_host 0 "1," ""); [discriminate| |reflexivity].
    simpl. auto.
  - apply (parse_sets_blank_item example_host 0 "0,,1" ""); [discriminate| |reflexivity|
      discriminate|exact Hwf].
    simpl. auto.
Defined.

(** Whatever the argument, valid or not, and whatever ran before:
    [parse_cpuset_args] records its entry and makes exactly one call of
    [multiprocessing.cpu_count()]; [parse_gpuset_args] of a non-empty
    argument records its entry and makes exactly one call of
    [get_nvidia_devices_info()] on the Docker client it is given.
    Neither allocates an object, and their results do not depend on the
    state they run in. *)
Theorem parse_sets_effects (w : World) (docker : nat) (arg : string) (s : St) :
  fst (parse_cpuset_args w arg s)
    = mkSt (trace s ++ [EvEnter "parse_cpuset_args"; EvCpuCount]) (next_ref s) /\
  snd (parse_cpuset_args w arg s) = snd (run (parse_cpuset_args w arg)) /\
  (arg <> ""%string ->
   fst (parse_gpuset_args w docker arg s)
     = mkSt (trace s ++ [EvEnter "parse_gpuset_args"; EvGetNvidiaDevicesInfo docker])
            (next_ref s)) /\
  snd (parse_gpuset_args w docker arg s) = snd (run (parse_gpuset_args w docker arg)).
Proof.
  rewrite parse_cpuset_args_at, parse_gpuset_args_at. simpl.
  split; [done|]. split; [done|]. split; [|done].
  intros Hne. by rewrite (proj2 (String.eqb_neq _ _) Hne).
Qed.

Lemma parse_sets_effects_witness :
  fst (parse_gpuset_args example_host 3 "x" (mkSt [EvCpuCount] 5))
    = mkSt [EvCpuCount; EvEnter "parse_gpuset_args"; EvGetNvidiaDevicesInfo 3] 5.
Proof.
  destruct (parse_sets_effects example_host 3 "x" (mkSt [EvCpuCount] 5)) as (_ & _ & H & _).
  exact (H ltac:(discriminate)).
Defined.

(** Without a password file (none given, or the empty string), [main]
    neither stats nor reads a file: the bundle service client gets the
    server of the command line, the user name [CODALAB_USERNAME] and the
    password [CODALAB_PASSWORD] from the environment, and only for a
    variable that is unset the line typed at the [Username: ] prompt or at
    the hidden password prompt. *)
Theorem main_env_credentials (w : World) (parse_size : string -> res Z) (args : Args) :
  (password_file args = None \/ password_file args = Some ""%string) ->
  (forall r srv u p, EvNewBundleServiceClient r srv u p ∈ fst (run (main w parse_size args)) ->
     srv = server args /\
     u = default (stdin_line w) (environ w "CODALAB_USERNAME") /\
     p = default (getpass_line w) (environ w "CODALAB_PASSWORD")) /\
  (forall path, (EvStat path ∉ fst (run (main w parse_size args))) /\
                (EvReadFile path ∉ fst (run (main w parse_size args)))) /\
  (environ w "CODALAB_USERNAME" <> None ->
   forall prompt, EvRawInput prompt ∉ fst (run (main w parse_size args))) /\
  (environ w "CODALAB_PASSWORD" <> None -> EvGetpass ∉ fst (run (main w parse_size args))).
Proof.
  intros Hpf.
  set (U := default (stdin_line w) (environ w "CODALAB_USERNAME")).
  set (PW := default (getpass_line w) (environ w "CODALAB_PASSWORD")).
  set (P := fun e => match e with
            | EvNewBundleServiceClient _ srv u p =>
                String.eqb srv (server args) && String.eqb u U && String.eqb p PW
            | EvStat _ | EvReadFile _ => false
            | EvRawInput _ =>
                match environ w "CODALAB_USERNAME" with None => true | Some _ => false end
            | EvGetpass =>
                match environ w "CODALAB_PASSWORD" with None => true | Some _ => false end
            | _ => true
            end).
  assert (Hext : ext P (main w parse_size args)).
  { assert (Ht : truthy_path (password_file args) = None) by (by destruct Hpf as [-> | ->]).
    unfold main. rewrite Ht. cbv beta iota.
    apply ext_bind; [by apply ext_emit|intros _].
    eapply ext_bind_known.
    { intros s. rewrite credentials_from_env_at. eexists. split; [reflexivity|].
      unfold P. destruct (environ w "CODALAB_USERNAME"), (environ w "CODALAB_PASSWORD");
        reflexivity. }
    cbv beta iota.
    unfold Worker, create_run_manager, parse_cpuset_args, parse_gpuset_args,
      import_boto3, multiprocessing_cpu_count, get_nvidia_devices_info.
    ext_tac; try reflexivity.
    unfold P. by rewrite !String.eqb_refl. }
  split; [|split; [|split]].
  - intros r srv u p Hin. pose proof (ext_run_elem P _ _ Hext Hin) as HP. simpl in HP.
    apply andb_prop in HP as [HP H3]. apply andb_prop in HP as [H1 H2].
    apply String.eqb_eq in H1, H2, H3. auto.
  - intros path. split; intros Hin; pose proof (ext_run_elem P _ _ Hext Hin) as HP;
      discriminate HP.
  - intros Hu prompt Hin. pose proof (ext_run_elem P _ _ Hext Hin) as HP. simpl in HP.
    by destruct (environ w "CODALAB_USERNAME").
  - intros Hp Hin. pose proof (ext_run_elem P _ _ Hext Hin) as HP. simpl in HP.
    by destruct (environ w "CODALAB_PASSWORD").
Qed.

Lemma main_env_credentials_witness :
  EvNewBundleServiceClient 0 "https://worksheets.codalab.org" "alice" "hunter2"
    ∈ fst (run (main example_host example_parse_size (example_args_with None None None))) /\
  (forall r srv u p, EvNewBundleServiceClient r srv u p
     ∈ fst (run (main example_host example_parse_size (example_args_with None None None))) ->
   srv = server (example_args_with None None None) /\
   u = default (stdin_line example_host) (environ example_host "CODALAB_USERNAME") /\
   p = default (getpass_line example_host) (environ example_host "CODALAB_PASSWORD")).
Proof.
  split.
  - apply list_elem_of_In. vm_compute. auto 20.
  - apply (main_env_credentials example_host example_parse_size (example_args_with None None None)).
    by left.
Defined.

(** With a password file that is not empty and whose permission bits for
    group and others are clear, and whose first two lines are [u] and [p],
    the bundle service client gets [u] and [p] with their surrounding
    blanks stripped (whatever follows in the file), and [main] neither
    consults the environment nor prompts. *)
Theorem main_file_credentials (w : World) (parse_size : string -> res Z) (args : Args)
    (path u p rest : string) (mode : Z) :
  password_file args = Some path -> path <> ""%string ->
  stat_mode w path = Some mode -> Z.land mode (Z.lor S_IRWXG S_IRWXO) = 0 ->
  file_contents w path = Some (u ++ String "010"%char (p ++ String "010"%char rest))%string ->
  ~ In "010"%char (list_ascii_of_string u) -> ~ In "010"%char (list_ascii_of_string p) ->
  (forall r srv u' p', EvNewBundleServiceClient r srv u' p' ∈ fst (run (main w parse_size args)) ->
     srv = server args /\ u' = Py.strip u /\ p' = Py.strip p) /\
  (forall e, e ∈ fst (run (main w parse_size args)) ->
     match e with EvGetEnv _ | EvRawInput _ | EvGetpass => False | _ => True end).
Proof.
  intros Hpf Hne Hs Hz Hc Hu Hp.
  set (P := fun e => match e with
            | EvNewBundleServiceClient _ srv u' p' =>
                String.eqb srv (server args) && String.eqb u' (Py.strip u) &&
                String.eqb p' (Py.strip p)
            | EvGetEnv _ | EvRawInput _ | EvGetpass => false
            | _ => true
            end).
  assert (Hext : ext P (main w parse_size args)).
  { assert (Ht : truthy_path (password_file args) = Some path).
    { rewrite Hpf. simpl. by rewrite (proj2 (String.eqb_neq _ _) Hne). }
    unfold main. rewrite Ht. cbv beta iota.
    apply ext_bind; [by apply ext_emit|intros _].
    eapply ext_bind_known.
    { intros s. rewrite (credentials_from_file_at w path u p rest mode s) by done.
      eexists. split; reflexivity. }
    cbv beta iota.
    unfold Worker, create_run_manager, parse_cpuset_args, parse_gpuset_args,
      import_boto3, multiprocessing_cpu_count, get_nvidia_devices_info.
    ext_tac; try reflexivity.
    unfold P. by rewrite !String.eqb_refl. }
  split.
  - intros r srv u' p' Hin. pose proof (ext_run_elem P _ _ Hext Hin) as HP. simpl in HP.
    apply andb_prop in HP as [HP H3]. apply andb_prop in HP as [H1 H2].
    apply String.eqb_eq in H1, H2, H3. auto.
  - intros e Hin. pose proof (ext_run_elem P _ _ Hext Hin) as HP.
    destruct e; try discriminate HP; exact I.
Qed.

Lemma main_file_credentials_witness :
  EvNewBundleServiceClient 0 "https://worksheets.codalab.org" "alice" "hunter2"
    ∈ fst (run (main example_host example_parse_size
                 (example_args_with (Some "secret.txt"%string) None None))) /\
  ("https://worksheets.codalab.org"%string
     = server (example_args_with (Some "secret.txt"%string) None None) /\
   "alice"%string = Py.strip "alice" /\ "hunter2"%string = Py.strip "hunter2").
Proof.
  assert (Hin : EvNewBundleServiceClient 0 "https://worksheets.codalab.org" "alice" "hunter2"
    ∈ fst (run (main example_host example_parse_size
                 (example_args_with (Some "secret.txt"%string) None None)))).
  { apply list_elem_of_In. vm_compute. auto 20. }
  split; [exact Hin|].
  destruct (main_file_credentials example_host example_parse_size
              (example_args_with (Some "secret.txt"%string) None None)
              "secret.txt" "alice" "hunter2" "" 33152
              eq_refl ltac:(discriminate) eq_refl ltac:(vm_compute; reflexivity) eq_refl
              ltac:(simpl; intuition discriminate) ltac:(simpl; intuition discriminate))
    as [H _].
  exact (H _ _ _ _ Hin).
Defined.

(** When [--max-work-dir-size], or [--max-image-cache-size] when it is
    given, cannot be parsed, [main] constructs neither the bundle service
    client nor the worker, never prints the ready indicator and does not
    return normally. *)
Theorem main_size_parse_error (w : World) (parse_size : string -> res Z) (args : Args)
    (e : exn) :
  (parse_size (max_work_dir_size args) = Raise e \/
   exists sz, max_image_cache_size args = Some sz /\ parse_size sz = Raise e) ->
  (forall ev, ev ∈ fst (run (main w parse_size args)) ->
     match ev with
     | EvNewBundleServiceClient _ _ _ _ | EvNewWorker _ _ _ _ _ _ _ _ | EvPrint _ => False
     | _ => True
     end) /\
  snd (run (main w parse_size args)) <> Ok tt.
Proof.
  intros Hps.
  set (P := fun ev => match ev with
            | EvNewBundleServiceClient _ _ _ _ | EvNewWorker _ _ _ _ _ _ _ _ | EvPrint _ => false
            | _ => true
            end).
  assert (Hext : ext P (main w parse_size args)).
  { unfold main.
    destruct Hps as [He | (sz & Hsz & He)]; [rewrite He | rewrite Hsz, He; cbv beta iota];
    unfold credentials_from_file, credentials_from_env, os_stat_mode,
      read_credentials_file, getenv;
    repeat first [ match goal with
                   | |- ext _ (bind (lift_res (Raise _)) _) => apply ext_bind_lift_raise
                   | |- ext _ (bind (bind (lift_res (Raise _)) _) _) =>
                       apply ext_bind_bind_lift_raise
                   end
                 | ext_step ];
    reflexivity. }
  split.
  - intros ev Hin. pose proof (ext_run_elem P _ _ Hext Hin) as HP.
    destruct ev; try discriminate HP; exact I.
  - destruct (MainFacts.run_main w parse_size args) as (t & r & _ & _ & Hr).
    destruct r as [wk|e']; rewrite Hr; [|discriminate].
    intros _.
    assert (Hin : EvPrint "Worker started." ∈ fst (run (main w parse_size args))).
    { rewrite Hr. apply elem_of_app. right. unfold startup_tail.
      do 3 apply list_elem_of_further. apply list_elem_of_here. }
    pose proof (ext_run_elem P _ _ Hext Hin) as HP. discriminate HP.
Qed.

Lemma main_size_parse_error_witness :
  snd (run (main example_host example_parse_size
              (example_args_with None None (Some "lots"%string)))) <> Ok tt.
Proof.
  apply (main_size_parse_error example_host example_parse_size
           (example_args_with None None (Some "lots"%string)) (ValueError "lots")).
  right. exists "lots"%string. split; reflexivity.
Defined.

(** The worker that [main] constructs gets the id, tag, work directory,
    dependency length limit and shared-file-system flag of the command
    line, the parsed [--max-work-dir-size], and the bundle service client
    that [main] constructed for the server of the command line. *)
Theorem main_worker_wiring (w : World) (parse_size : string -> res Z) (args : Args)
    (r : nat) (id : string) (tg : option string) (wd : string) (mw md : Z) (sfs : bool)
    (bs : nat) :
  EvNewWorker r id tg wd mw md sfs bs ∈ fst (run (main w parse_size args)) ->
  id = id_ args /\ tg = tag args /\ wd = work_dir args /\
  md = max_dependencies_serialized_length args /\ sfs = shared_file_system args /\
  parse_size (max_work_dir_size args) = Ok mw /\
  exists u p, EvNewBundleServiceClient bs (server args) u p ∈ fst (run (main w parse_size args)).
Proof.
  rewrite main_parts.
  destruct (main_pre_no_worker w parse_size args (mkSt [] 0)) as (t0 & E0 & F0).
  destruct (main_pre w parse_size args (mkSt [] 0)) as [s1 [[[bs0 mw0] mib]|e]] eqn:Epre;
    simpl in E0.
  2: { simpl. rewrite E0. intros Hin. pose proof (forallb_elem _ _ _ F0 Hin) as X. discriminate X. }
  destruct (main_pre_ok w parse_size args _ _ _ _ _ Epre) as (Hmw & u & p & Hbs).
  rewrite E0 in Hbs. simpl in Hbs.
  rewrite Worker_at.
  set (s1' := mkSt (trace s1 ++ [EvNewWorker (next_ref s1) (id_ args) (tag args) (work_dir args)
                    mw0 (max_dependencies_serialized_length args) (shared_file_system args) bs0])
                   (S (next_ref s1))).
  destruct (create_run_manager_no_worker w args mib bs0 (next_ref s1) s1') as (t & Et & Ft).
  assert (Hs2 : forall s2, trace s2 = trace s1' ++ t ->
    EvNewWorker r id tg wd mw md sfs bs ∈ trace s2 ->
    id = id_ args /\ tg = tag args /\ wd = work_dir args /\
    md = max_dependencies_serialized_length args /\ sfs = shared_file_system args /\
    parse_size (max_work_dir_size args) = Ok mw /\
    exists u p, EvNewBundleServiceClient bs (server args) u p ∈ trace s2).
  { intros s2 E2 Hin. rewrite E2 in Hin |- *. unfold s1' in Hin |- *. simpl in Hin |- *.
    rewrite ?E0 in Hin. rewrite ?E0.
    apply elem_of_app in Hin as [Hin|Hin]; [apply elem_of_app in Hin as [Hin|Hin]|].
    - pose proof (forallb_elem _ _ _ F0 Hin) as X. discriminate X.
    - apply list_elem_of_singleton in Hin. injection Hin as -> -> -> -> -> -> -> ->.
      do 5 (split; [done|]). split; [done|]. exists u, p.
      apply elem_of_app. left. apply elem_of_app. by left.
    - pose proof (forallb_elem _ _ _ Ft Hin) as X. discriminate X. }
  destruct (create_run_manager w args mib bs0 (next_ref s1) s1') as [s2 [rm|e]];
    simpl in Et |- *.
  - intros Hin.
    assert (Hin2 : EvNewWorker r id tg wd mw md sfs bs ∈ trace s2).
    { apply elem_of_app in Hin as [Hin|Hin]; [apply elem_of_app in Hin as [Hin|Hin]|].
      - done.
      - apply list_elem_of_singleton in Hin. discriminate Hin.
      - unfold startup_tail in Hin.
        repeat (apply elem_of_cons in Hin as [Hin|Hin]; [discriminate Hin|]).
        by apply elem_of_nil in Hin. }
    destruct (Hs2 s2 Et Hin2) as (? & ? & ? & ? & ? & ? & u' & p' & Hb).
    do 6 (split; [done|]). exists u', p'. apply elem_of_app. left. apply elem_of_app. by left.
  - intros Hin. exact (Hs2 s2 Et Hin).
Qed.

Lemma main_worker_wiring_witness :
  EvNewWorker 1 "host(1)" None "codalab-worker-scratch" (10 * 2 ^ 30) 60000 false 0
    ∈ fst (run (main example_host example_parse_size example_args)) /\
  ("host(1)"%string = id_ example_args /\ None = tag example_args /\
   "codalab-worker-scratch"%string = work_dir example_args /\
   60000 = max_dependencies_serialized_length example_args /\
   false = shared_file_system example_args /\
   example_parse_size (max_work_dir_size example_args) = Ok (10 * 2 ^ 30) /\
   exists u p, EvNewBundleServiceClient 0 (server example_args) u p
     ∈ fst (run (main example_host example_parse_size example_args))).
Proof.
  assert (Hin : EvNewWorker 1 "host(1)" None "codalab-worker-scratch" (10 * 2 ^ 30) 60000 false 0
    ∈ fst (run (main example_host example_parse_size example_args))).
  { apply list_elem_of_In. vm_compute. auto 30. }
  split; [exact Hin|]. exact (main_worker_wiring _ _ _ _ _ _ _ _ _ _ _ Hin).
Defined.

(** A password file of a single line without a newline is accepted: [main]
    goes on past the credentials, its first events being the log line, the
    [os.stat], the read of the file and the logging set-up; and any bundle
    service client gets that line stripped as the user name and the empty
    password, since [readline] at the end of the file returns the empty
    string. *)
Theorem main_file_single_line (w : World) (parse_size : string -> res Z) (args : Args)
    (path u : string) (mode : Z) :
  password_file args = Some path -> path <> ""%string ->
  stat_mode w path = Some mode -> Z.land mode (Z.lor S_IRWXG S_IRWXO) = 0 ->
  file_contents w path = Some u -> ~ In "010"%char (list_ascii_of_string u) ->
  (exists t, fst (run (main w parse_size args)) =
     [EvLog ("Connecting to " ++ server args); EvStat path; EvReadFile path;
      EvLoggingConfig (verbose args)] ++ t) /\
  (forall r srv u' p', EvNewBundleServiceClient r srv u' p' ∈ fst (run (main w parse_size args)) ->
     srv = server args /\ u' = Py.strip u /\ p' = EmptyString).
Proof.
  intros Hpf Hne Hs Hz Hc Hu.
  split.
  { assert (Ht : truthy_path (password_file args) = Some path).
    { rewrite Hpf. simpl. by rewrite (proj2 (String.eqb_neq _ _) Hne). }
    unfold run, main. rewrite Ht. cbv beta iota.
    unfold bind at 1. cbn [emit fst snd trace next_ref].
    unfold bind at 1.
    rewrite (credentials_from_file_one_line w path u mode) by done. cbv beta iota.
    unfold bind at 1. cbn [emit fst snd trace next_ref].
    match goal with |- context [?m {| trace := ?tr; next_ref := ?nr |}] =>
      assert (H : ext (fun _ => true) m);
      [|destruct (H (mkSt tr nr)) as (t & E & _);
        destruct (m (mkSt tr nr)) as [s1 r1]] end.
    { unfold Worker, create_run_manager, parse_cpuset_args, parse_gpuset_args,
        import_boto3, multiprocessing_cpu_count, get_nvidia_devices_info.
      ext_tac; reflexivity. }
    exists t. simpl in E |- *. rewrite E. reflexivity. }
  set (P := fun e => match e with
            | EvNewBundleServiceClient _ srv u' p' =>
                String.eqb srv (server args) && String.eqb u' (Py.strip u) &&
                String.eqb p' EmptyString
            | _ => true
            end).
  assert (Hext : ext P (main w parse_size args)).
  { assert (Ht : truthy_path (password_file args) = Some path).
    { rewrite Hpf. simpl. by rewrite (proj2 (String.eqb_neq _ _) Hne). }
    unfold main. rewrite Ht. cbv beta iota.
    apply ext_bind; [by apply ext_emit|intros _].
    eapply ext_bind_known.
    { intros s. rewrite (credentials_from_file_one_line w path u mode s) by done.
      eexists. split; reflexivity. }
    cbv beta iota.
    unfold Worker, create_run_manager, parse_cpuset_args, parse_gpuset_args,
      import_boto3, multiprocessing_cpu_count, get_nvidia_devices_info.
    ext_tac; try reflexivity.
    unfold P. by rewrite !String.eqb_refl. }
  intros r srv u' p' Hin. pose proof (ext_run_elem P _ _ Hext Hin) as HP. simpl in HP.
  apply andb_prop in HP as [HP H3]. apply andb_prop in HP as [H1 H2].
  apply String.eqb_eq in H1, H2, H3. auto.
Qed.

Lemma main_file_single_line_witness :
  (exists t, fst (run (main single_line_host example_parse_size
                         (example_args_with (Some "pw"%string) None None))) =
     [EvLog ("Connecting to " ++ "https://worksheets.codalab.org"); EvStat "pw";
      EvReadFile "pw"; EvLoggingConfig false] ++ t) /\
  EvNewBundleServiceClient 0 "https://worksheets.codalab.org" "bob" ""
    ∈ fst (run (main single_line_host example_parse_size
                 (example_args_with (Some "pw"%string) None None))) /\
  ("https://worksheets.codalab.org"%string
     = server (example_args_with (Some "pw"%string) None None) /\
   "bob"%string = Py.strip " bob " /\ ""%string = EmptyString).
Proof.
  destruct (main_file_single_line single_line_host example_parse_size
              (example_args_with (Some "pw"%string) None None) "pw" " bob " 33152)
    as [Hpre Hcl];
    [reflexivity|discriminate|reflexivity|reflexivity|reflexivity|
     simpl; intuition discriminate|].
  assert (Hin : EvNewBundleServiceClient 0 "https://worksheets.codalab.org" "bob" ""
    ∈ fst (run (main single_line_host example_parse_size
                 (example_args_with (Some "pw"%string) None None)))).
  { apply list_elem_of_In. vm_compute. auto 20. }
  split; [exact Hpre|]. split; [exact Hin|]. exact (Hcl _ _ _ _ Hin).
Defined.

(** A password file that does not exist makes [main] fail with [OSError]
    right after the [os.stat]; one whose permissions are strict but that
    cannot be opened makes it fail with [IOError] right after the attempt
    to read it.  Nothing else happens before. *)
Theorem main_password_file_errors (w : World) (parse_size : string -> res Z) (args : Args)
    (path : string) :
  password_file args = Some path -> path <> ""%string ->
  (stat_mode w path = None ->
   run (main w parse_size args)
     = ([EvLog ("Connecting to " ++ server args); EvStat path], Raise (OSError path))) /\
  (forall mode, stat_mode w path = Some mode -> Z.land mode (Z.lor S_IRWXG S_IRWXO) = 0 ->
   file_contents w path = None ->
   run (main w parse_size args)
     = ([EvLog ("Connecting to " ++ server args); EvStat path; EvReadFile path],
        Raise (IOError path))).
Proof.
  intros Hp Hne. unfold run, main, truthy_path. rewrite Hp.
  rewrite (proj2 (String.eqb_neq _ _) Hne).
  unfold credentials_from_file, os_stat_mode, read_credentials_file, bind, emit, ret, raise.
  simpl. split.
  - intros Hs. by rewrite Hs.
  - intros mode Hs Hz Hc. rewrite Hs. simpl. rewrite Hz. simpl. by rewrite Hc.
Qed.

Lemma main_password_file_errors_witness :
  run (main example_host example_parse_size (example_args_with (Some "none.txt"%string) None None))
    = ([EvLog "Connecting to https://worksheets.codalab.org"; EvStat "none.txt"],
       Raise (OSError "none.txt")).
Proof.
  apply (main_password_file_errors example_host example_parse_size
           (example_args_with (Some "none.txt"%string) None None) "none.txt");
    [reflexivity|discriminate|reflexivity].
Defined.

(** On the batch back end, [create_run_manager] reads nothing of the
    arguments but the queue: two argument sets with the same queue, and any
    two image cache bounds, give the same run (the same effects and the same
    result or exception), whatever their CPU set, GPU set, work directory
    and network prefix.  So an invalid CPU or GPU set is never reported on
    this back end. *)
Theorem create_run_manager_batch (w : World) (args1 args2 : Args) (q : string)
    (mib1 mib2 : option Z) (bs wk : nat) (s : St) :
  batch_queue args1 = Some q -> batch_queue args2 = Some q ->
  create_run_manager w args1 mib1 bs wk s = create_run_manager w args2 mib2 bs wk s.
Proof.
  intros H1 H2. unfold create_run_manager, bind, emit. cbn [trace next_ref].
  rewrite H1, H2. reflexivity.
Qed.

Lemma create_run_manager_batch_witness :
  create_run_manager example_host
    {| tag := None; server := ""; work_dir := ""; network_prefix := "";
       cpuset := "not a list"; gpuset := "99"; max_work_dir_size := "";
       max_dependencies_serialized_length := 0; max_image_cache_size := None;
       password_file := None; verbose := false; id_ := ""; shared_file_system := false;
       batch_queue := Some "q"%string |} (Some 0) 0 1 (mkSt [] 2)
  = create_run_manager example_host
      (example_args_with None (Some "q"%string) None) None 0 1 (mkSt [] 2) /\
  snd (create_run_manager example_host
         (example_args_with None (Some "q"%string) None) None 0 1 (mkSt [] 2)) = Ok 3%nat.
Proof.
  split; [|vm_compute; reflexivity].
  apply (create_run_manager_batch example_host _ _ "q"); reflexivity.
Defined.



(** The parsers accept every comma-separated list of decimal numbers, each
    possibly surrounded by blanks (as in [" 0, 2"]), whose numbers are
    distinct and are CPUs of the host (for GPUs: reported GPUs, on a host
    whose device paths are [/dev/nvidiaN]); the result is the set of
    these numbers. *)
Theorem parse_sets_accept (w : World) (docker : nat)
    (items : list (string * list ascii * string)) :
  items <> [] ->
  Forall (fun '(b1, ds, b2) =>
            forallb Py.is_space (list_ascii_of_string b1) = true /\ ds <> [] /\
            Forall (fun c => Py.is_digit c = true) ds /\
            forallb Py.is_space (list_ascii_of_string b2) = true) items ->
  NoDup (map (fun '(_, ds, _) => Py.digits_value ds) items) ->
  (Forall (fun n => n < cpu_count w) (map (fun '(_, ds, _) => Py.digits_value ds) items) ->
   snd (run (parse_cpuset_args w (String.concat ","
          (map (fun '(b1, ds, b2) => (b1 ++ string_of_list_ascii ds ++ b2)%string) items))))
     = Ok (list_to_set (map (fun '(_, ds, _) => Py.digits_value ds) items))) /\
  (devices_well_formed w ->
   Forall (fun n => n ∈ discovered_gpus w) (map (fun '(_, ds, _) => Py.digits_value ds) items) ->
   snd (run (parse_gpuset_args w docker (String.concat ","
          (map (fun '(b1, ds, b2) => (b1 ++ string_of_list_ascii ds ++ b2)%string) items))))
     = Ok (list_to_set (map (fun '(_, ds, _) => Py.digits_value ds) items))).
Proof.
  intros Hne F Hnd.
  set (render := fun '(b1, ds, b2) => (b1 ++ string_of_list_ascii ds ++ b2)%string).
  set (value := fun '((_, ds, _) : string * list ascii * string) => Py.digits_value ds).
  fold render value in Hnd |- *.
  set (arg := String.concat "," (map render items)).
  assert (Hint : Forall (fun a => Py.int_ (render a) = Some (value a)) items).
  { eapply Forall_impl; [exact F|]. intros [[b1 ds] b2] (H1 & Hd & Fd & H2).
    by apply int_padded. }
  assert (Hnc : Forall (fun x => ~ In ","%char (list_ascii_of_string x)) (map render items)).
  { apply Forall_map. eapply Forall_impl; [exact F|]. intros [[b1 ds] b2] (H1 & Hd & Fd & H2).
    simpl. rewrite !list_ascii_of_string_app, list_ascii_of_string_of_list_ascii.
    rewrite forallb_forall in H1, H2. rewrite Forall_forall in Fd.
    intros Hin. apply in_app_or in Hin as [Hin|Hin]; [|apply in_app_or in Hin as [Hin|Hin]].
    - specialize (H1 _ Hin). discriminate H1.
    - apply list_elem_of_In, Fd in Hin. discriminate Hin.
    - specialize (H2 _ Hin). discriminate H2. }
  assert (Hints : ints (Py.split "," arg) = Some (map value items)).
  { unfold arg. rewrite split_concat; [by apply ints_map| |done].
    destruct items; [done|discriminate]. }
  assert (HnA : arg <> "ALL"%string).
  { intros E. rewrite E in Hints.
    assert (N : ints (Py.split "," "ALL") = None) by reflexivity. congruence. }
  assert (Hn0 : arg <> ""%string).
  { intros E. rewrite E in Hints.
    assert (N : ints (Py.split "," "") = None) by reflexivity. congruence. }
  split.
  - intros Hr. unfold run. rewrite parse_cpuset_args_explicit by done. rewrite Hints.
    cbn -[list_to_set]. rewrite bool_decide_eq_true_2; [done|]. split; [done|].
    apply Forall_forall. intros n Hn. rewrite Forall_forall in Hr. split; [|by apply Hr].
    apply list_elem_of_In, in_map_iff in Hn as ([[b1 ds] b2] & <- & Hin).
    rewrite Forall_forall in F. apply list_elem_of_In, F in Hin as (_ & _ & Fd & _).
    by apply digits_value_nonneg.
  - intros Hwf Hg. unfold run. rewrite parse_gpuset_args_explicit by done. rewrite Hints.
    cbn -[list_to_set]. rewrite bool_decide_eq_true_2; [done|]. by split.
Qed.

Lemma parse_sets_accept_witness :
  snd (run (parse_cpuset_args example_host " 0,2 ")) = Ok (list_to_set [0; 2]).
Proof.
  destruct (parse_sets_accept example_host 0
              [(" "%string, ["0"%char], ""%string); (""%string, ["2"%char], " "%string)])
    as [H _].
  - discriminate.
  - constructor; [|constructor; [|constructor]]; simpl;
      (split; [reflexivity|]); (split; [discriminate|]); (split; [repeat constructor|reflexivity]).
  - apply (bool_decide_unpack _). vm_compute. exact I.
  - apply H. apply (bool_decide_unpack _). vm_compute. exact I.
Defined.

End Extras.
